(** * TFSaver: checkpointing glue of ml-agents over TensorFlow

    Shallow embedding of [ml-agents/mlagents/trainers/saver/tf_saver.py].

    The Saver is a Python object whose methods mutate its own attributes,
    the session of the policy it is bound to, and the file system, and
    which may raise.  Every method is therefore a computation in a state
    and exception monad over the pair (attributes of [self], world). *)

From stdpp Require Import gmap strings list fin_maps pretty.
From Stdlib Require Import ZArith.

Open Scope string_scope.
Open Scope list_scope.
Open Scope Z_scope.

(** ** Paths and formatted strings *)

Definition sep : Ascii.ascii := Ascii.ascii_of_nat 47.

Definition is_sep (c : Ascii.ascii) : bool := Ascii.eqb c sep.

Fixpoint drop_while {A} (f : A → bool) (l : list A) : list A :=
  match l with
  | [] => []
  | x :: l' => if f x then drop_while f l' else l
  end.

(** [posixpath.dirname]: everything up to the last separator; trailing
    separators of that head are stripped unless the head is made of
    separators only. *)
Definition dirname (p : string) : string :=
  let head_rev := drop_while (λ c, negb (is_sep c)) (rev (String.list_ascii_of_string p)) in
  let head_rev' :=
    if forallb is_sep head_rev then head_rev else drop_while is_sep head_rev in
  String.string_of_list_ascii (rev head_rev').

Definition ends_with_sep (p : string) : bool :=
  match rev (String.list_ascii_of_string p) with
  | c :: _ => is_sep c
  | [] => false
  end.

Definition starts_with_sep (p : string) : bool :=
  match p with
  | String c _ => is_sep c
  | EmptyString => false
  end.

(** [posixpath.join] of two components. *)
Definition path_join (a b : string) : string :=
  if starts_with_sep b then b
  else if (String.eqb a "" || ends_with_sep a)%bool then a +:+ b
  else a +:+ "/" +:+ b.

(** [path.split('/')]. *)
Fixpoint split_on_sep (cs : list Ascii.ascii) (current : list Ascii.ascii) : list string :=
  match cs with
  | [] => [String.string_of_list_ascii (rev current)]
  | c :: cs' =>
      if is_sep c
      then String.string_of_list_ascii (rev current) :: split_on_sep cs' []
      else split_on_sep cs' (c :: current)
  end.

(** The loop of [posixpath.normpath] over the components; [kept] is the
    list of the components kept so far, the last one first. *)
Fixpoint normalized_components (rooted : bool) (comps : list string) (kept : list string)
  : list string :=
  match comps with
  | [] => rev kept
  | comp :: comps' =>
      if (String.eqb comp "" || String.eqb comp ".")%bool
      then normalized_components rooted comps' kept
      else if negb (String.eqb comp "..")
      then normalized_components rooted comps' (comp :: kept)
      else match kept with
           | [] =>
               if rooted then normalized_components rooted comps' kept
               else normalized_components rooted comps' (comp :: kept)
           | top :: below =>
               if String.eqb top ".."
               then normalized_components rooted comps' (comp :: kept)
               else normalized_components rooted comps' below
           end
  end.

Fixpoint join_with_sep (comps : list string) : string :=
  match comps with
  | [] => ""
  | [comp] => comp
  | comp :: comps' => comp +:+ "/" +:+ join_with_sep comps'
  end.

(** The number of separators [normpath] keeps in front: none for a
    relative path, two for a path that starts with exactly two, else one. *)
Definition initial_slashes (cs : list Ascii.ascii) : nat :=
  match cs with
  | c1 :: rest =>
      if is_sep c1 then
        match rest with
        | c2 :: rest' =>
            if is_sep c2 then
              match rest' with
              | c3 :: _ => if is_sep c3 then 1%nat else 2%nat
              | [] => 2%nat
              end
            else 1%nat
        | [] => 1%nat
        end
      else 0%nat
  | [] => 0%nat
  end.

(** [posixpath.normpath]: the spelling of a path without empty, [.] and
    resolvable [..] components.  Two paths with the same normal form name
    the same file; the file system below is keyed by normal forms. *)
Definition normpath (path : string) : string :=
  let cs := String.list_ascii_of_string path in
  let slashes := initial_slashes cs in
  let comps := normalized_components (negb (Nat.eqb slashes 0)) (split_on_sep cs []) [] in
  let body := join_with_sep comps in
  let whole :=
    match slashes with
    | O => body
    | S O => "/" +:+ body
    | _ => "//" +:+ body
    end in
  if String.eqb whole "" then "." else whole.

(** A directory and the directories above it, nearest first. *)
Fixpoint ancestors (fuel : nat) (dir : string) : list string :=
  match fuel with
  | O => []
  | S fuel' =>
      if (String.eqb dir "" || String.eqb dir "." || String.eqb dir "/"
          || String.eqb dir "//")%bool
      then []
      else dir :: ancestors fuel' (dirname dir)
  end.

(** [str(n)] of an integer, as an f-string formats it. *)
Definition str_of_int (n : Z) : string := pretty n.

(** ** Exceptions and the names of the module *)

Inductive exception :=
| UnityException (msg : string)
| UnityPolicyException (msg : string)
| NameError (msg : string)
| AttributeError (msg : string)
| TypeError (msg : string)
| ValueError (msg : string)
| NotFoundError (msg : string)
| FailedPreconditionError (msg : string)
| InvalidArgumentError (msg : string).

(** The names bound at the top level of [tf_saver.py]: its imports
    (lines 1 to 11), [logger] (line 14) and the class (line 17). *)
Definition module_globals : list string :=
  [ "Tuple"; "LooseVersion"; "UnityException"; "get_logger"; "tf"; "Saver";
    "SerializationSettings"; "export_policy_model"; "BehaviorSpec";
    "TrainerSettings"; "TFPolicy"; "__version__"; "logger"; "TFSaver" ].

(** Exception classes a builtin name denotes. *)
Definition builtin_exceptions : list (string * (string → exception)) :=
  [ ("NameError", NameError); ("AttributeError", AttributeError);
    ("TypeError", TypeError); ("ValueError", ValueError) ].

Fixpoint assoc {A} (k : string) (l : list (string * A)) : option A :=
  match l with
  | [] => None
  | (k', v) :: l' => if String.eqb k k' then Some v else assoc k l'
  end.

(** [raise name(msg)] for a name used as a free variable of a method: the
    name is looked up among the globals of the module, then the builtins;
    a name bound in neither raises [NameError] instead. *)
Definition raise_global (name msg : string) : exception :=
  if bool_decide (name ∈ module_globals) then
    if String.eqb name "UnityException" then UnityException msg
    else TypeError "exceptions must derive from BaseException"
  else
    match assoc name builtin_exceptions with
    | Some cls => cls msg
    | None => NameError ("name '" +:+ name +:+ "' is not defined")
    end.

(** What a call gives: a value, or the exception it raises. *)
Inductive result (A : Type) :=
| Ok (a : A)
| Raise (e : exception).
Arguments Ok {A} a.
Arguments Raise {A} e.

(** ** Data model *)

(** The value of a variable: its element type, its shape and the flat list
    of its entries. *)
Record TensorValue := {
  dtype : string;
  shape : list nat;
  entries : list Z;
}.

(** What the graph fixes of a variable, and a checkpoint records of it. *)
Definition signature_of (v : TensorValue) : string * list nat := (dtype v, shape v).

(** A [tf.Session]: the values of the variables that have been given one,
    and the global step (the training step counter, itself a variable of
    the graph that is saved and restored with the others; it is modelled
    as holding a value from the start, 0 before anything is run). *)
Record Session := {
  variables : gmap string TensorValue;
  global_step : Z;
}.

(** A session in which nothing has been run yet. *)
Definition fresh_session : Session :=
  {| variables := ∅; global_step := 0 |}.

(** A [tf.Tensor] handle is modelled by what [.eval(session=...)] gives in
    a session: a number, or the exception the evaluation raises.  This one
    reads a scalar variable; a variable that has no value in the session
    cannot be read. *)
Definition variable_tensor (name : string) : Session → result Z :=
  λ s, match variables s !! name with
       | Some v =>
           match entries v with
           | [x] => Ok x
           | _ => Raise (InvalidArgumentError (name +:+ " is not a scalar"))
           end
       | None =>
           Raise (FailedPreconditionError
                    ("Attempting to use uninitialized value " +:+ name))
       end.

(** A [tf.Graph]: its variables, each with the value its initializer gives. *)
Record Graph := {
  graph_name : string;
  initial_values : gmap string TensorValue;
}.

Definition graph_variables (g : Graph) : gset string := dom (initial_values g).

(** The element type and shape of each variable of the graph. *)
Definition graph_signatures (g : Graph) : gmap string (string * list nat) :=
  signature_of <$> initial_values g.

(** References to sessions in the store of the world. *)
Abbreviation sess_ref := nat.

Module TFPolicy.
(** The attributes of a [TFPolicy] the Saver reads.  [version_tensors] is
    the (major, minor, patch) triple of the policy, or [None]. *)
Record t := {
  graph : Graph;
  sess : sess_ref;
  version_tensors :
    option ((Session → result Z) * (Session → result Z) * (Session → result Z));
}.
End TFPolicy.

Module TrainerSettings.
(** The two settings [TFSaver.__init__] reads. *)
Record t := {
  init_path : option string;
  keep_checkpoints : nat;
}.
End TrainerSettings.

(** Modelled from the spec: [SerializationSettings] is not in the source
    at hand; the spec describes it as the "configuration describing desired
    export formats and target capability flags". *)
Record SerializationSettings := {
  export_formats : list string;
  capability_flags : list string;
}.

Module tf_train.
(** A [tf.train.Saver] object: the retention bound it was built with,
    the variables of the graph it was built under, each with its element
    type and shape, and the checkpoints it has written and not yet
    deleted, oldest first. *)
Record Saver := {
  max_to_keep : nat;
  var_signatures : gmap string (string * list nat);
  last_checkpoints : list string;
}.

(** The names of the variables the saver saves and restores. *)
Definition var_list (sv : Saver) : gset string := dom (var_signatures sv).
End tf_train.

(** What a checkpoint stores under its path prefix. *)
Record CheckpointData := {
  ck_variables : gmap string TensorValue;
  ck_global_step : Z;
}.

(** The [checkpoint] state file of a directory. *)
Record CheckpointState := {
  model_checkpoint_path : string;
  all_model_checkpoint_paths : list string;
}.

Record ExportedModel := {
  em_graph : Graph;
  em_session : Session;
  em_settings : SerializationSettings;
}.

(** Files by path.  A path is looked up, written and deleted under its
    normal form, so that [results/run] and [results/run/] are one entry.
    What the spelling does not decide (the working directory of a relative
    path, links) is outside the model. *)
Record PathMap (V : Type) := { entries_of : gmap string V }.
Arguments entries_of {V} _.

#[global] Instance PathMap_lookup {V} : Lookup string V (PathMap V) :=
  λ p m, entries_of m !! normpath p.

#[global] Instance PathMap_insert {V} : Insert string V (PathMap V) :=
  λ p v m, {| entries_of := <[normpath p := v]> (entries_of m) |}.

#[global] Instance PathMap_delete {V} : Delete string (PathMap V) :=
  λ p m, {| entries_of := delete (normpath p) (entries_of m) |}.

#[global] Instance PathMap_empty {V} : Empty (PathMap V) :=
  {| entries_of := ∅ |}.

(** The part of the file system the Saver reads and writes: the
    directories that exist, checkpoints by path prefix, checkpoint state
    files by directory, serialized graph definitions (with their [as_text]
    flag) and exported models by path. *)
Record FileSystem := {
  directories : gset string;
  checkpoint_files : PathMap CheckpointData;
  checkpoint_states : PathMap CheckpointState;
  graph_defs : PathMap (Graph * bool);
  exported_models : PathMap ExportedModel;
}.

(** [os.path.isdir]: the working directory and the root always exist. *)
Definition is_directory (f : FileSystem) (dir : string) : bool :=
  let d := normpath dir in
  (String.eqb d "." || String.eqb d "/" || String.eqb d "//"
   || bool_decide (d ∈ directories f))%bool.

(** [recursive_create_dir]: the directory and those above it. *)
Definition with_directory (dir : string) (dirs : gset string) : gset string :=
  let d := normpath dir in
  list_to_set (ancestors (S (String.length d)) d) ∪ dirs.

(** Calls that leave the module, in the order they are made. *)
Inductive event :=
| EvLogInfo (msg : string)
| EvLogWarning (msg : string)
| EvNewSaver (max_to_keep : nat)
| EvGetCheckpointState (checkpoint_dir : string)
| EvSave (s : sess_ref) (save_path : string)
| EvRestore (s : sess_ref) (save_path : string)
| EvWriteGraph (g : Graph) (logdir name : string) (as_text : bool)
| EvExport (output_filepath : string) (settings : SerializationSettings)
           (g : Graph) (s : sess_ref)
| EvInitializeGraph (s : sess_ref)
| EvSetStep (s : sess_ref) (step : Z).

Record World := {
  sessions : gmap nat Session;
  fs : FileSystem;
  log : list event;
}.

(** The session behind a reference; one that is not in the store yet is a
    session in which nothing has been run. *)
Definition get_session (w : World) (r : sess_ref) : Session :=
  default fresh_session (sessions w !! r).

(** The attributes of a [TFSaver] instance. *)
Record TFSaver := {
  model_path : string;
  initialize_path : option string;
  _keep_checkpoints : nat;
  load : bool;
  policy : option TFPolicy.t;
  graph : option Graph;
  sess : option sess_ref;
  saver : option tf_train.Saver;
}.

(** ** The monad of methods *)

Record St := {
  self : TFSaver;
  world : World;
}.

Definition M (A : Type) : Type := St → result A * St.

Definition ret {A} (a : A) : M A := λ st, (Ok a, st).

Definition bind {A B} (m : M A) (k : A → M B) : M B :=
  λ st, match m st with
        | (Ok a, st') => k a st'
        | (Raise e, st') => (Raise e, st')
        end.

Definition raise {A} (e : exception) : M A := λ st, (Raise e, st).

(** A call that may raise and touches nothing. *)
Definition lift {A} (r : result A) : M A := λ st, (r, st).

(** [try: m except cls: handler], where [catches] recognises [cls]. *)
Definition try_except {A} (m : M A) (catches : exception → bool) (handler : M A) : M A :=
  λ st, match m st with
        | (Raise e, st') => if catches e then handler st' else (Raise e, st')
        | r => r
        end.

Declare Scope saver_scope.
Delimit Scope saver_scope with saver.
Notation "x <- m ;; k" := (bind m (λ x, k))
  (at level 100, m at next level, right associativity) : saver_scope.
Notation "m ;; k" := (bind m (λ _, k))
  (at level 100, right associativity) : saver_scope.
Open Scope saver_scope.

Definition get_self : M TFSaver := λ st, (Ok (self st), st).
Definition get_world : M World := λ st, (Ok (world st), st).

Definition emit (e : event) : M unit :=
  λ st, (Ok tt, {| self := self st;
                   world := {| sessions := sessions (world st);
                               fs := fs (world st);
                               log := log (world st) ++ [e] |} |}).

Definition put_sessions (ss : gmap nat Session) : M unit :=
  λ st, (Ok tt, {| self := self st;
                   world := {| sessions := ss;
                               fs := fs (world st);
                               log := log (world st) |} |}).

Definition put_fs (f : FileSystem) : M unit :=
  λ st, (Ok tt, {| self := self st;
                   world := {| sessions := sessions (world st);
                               fs := f;
                               log := log (world st) |} |}).

(** Attribute assignments [self.x = v]. *)
Definition set_policy (v : option TFPolicy.t) (s : TFSaver) : TFSaver :=
  {| model_path := model_path s; initialize_path := initialize_path s;
     _keep_checkpoints := _keep_checkpoints s; load := load s;
     policy := v; graph := graph s; sess := sess s; saver := saver s |}.
Definition set_graph (v : option Graph) (s : TFSaver) : TFSaver :=
  {| model_path := model_path s; initialize_path := initialize_path s;
     _keep_checkpoints := _keep_checkpoints s; load := load s;
     policy := policy s; graph := v; sess := sess s; saver := saver s |}.
Definition set_sess (v : option sess_ref) (s : TFSaver) : TFSaver :=
  {| model_path := model_path s; initialize_path := initialize_path s;
     _keep_checkpoints := _keep_checkpoints s; load := load s;
     policy := policy s; graph := graph s; sess := v; saver := saver s |}.
Definition set_saver (v : option tf_train.Saver) (s : TFSaver) : TFSaver :=
  {| model_path := model_path s; initialize_path := initialize_path s;
     _keep_checkpoints := _keep_checkpoints s; load := load s;
     policy := policy s; graph := graph s; sess := sess s; saver := v |}.

Definition assign (f : TFSaver → TFSaver) : M unit :=
  λ st, (Ok tt, {| self := f (self st); world := world st |}).

(** Attribute access on an attribute that may hold [None]. *)
Definition attr_of {A} (o : option A) (attr : string) : M A :=
  match o with
  | Some a => ret a
  | None => raise (AttributeError
              ("'NoneType' object has no attribute '" +:+ attr +:+ "'"))
  end.

(** [with self.graph.as_default(): body]; the body is given the graph that
    is the default one while it runs. *)
Definition as_default {A} (body : Graph → M A) : M A :=
  s <- get_self ;;
  g <- attr_of (graph s) "as_default" ;;
  body g.

(** ** The running package and framework *)

(** What the methods take from outside the module: the version of the
    running package; [TFPolicy._convert_version_string], which turns a
    version string into the tuple of its numbers or raises; and, for a
    restore that fails on the shape or type of a variable, which of the
    other variables the framework had already assigned (the framework
    runs the assignments in no fixed order). *)
Class Runtime := {
  __version__ : string;
  _convert_version_string : string → result (list Z);
  assigned_before_failure : tf_train.Saver → CheckpointData → Session → gset string;
}.

(** ** The framework: checkpoints of TensorFlow *)

Section Framework.
Context `{!Runtime}.

(** [tf.train.Saver(max_to_keep=k)] under the default graph [g]: the saver
    takes the variables of that graph and has written nothing yet. *)
Definition tf_train_Saver (g : Graph) (k : nat) : M tf_train.Saver :=
  emit (EvNewSaver k) ;;
  ret {| tf_train.max_to_keep := k;
         tf_train.var_signatures := graph_signatures g;
         tf_train.last_checkpoints := [] |}.

Definition with_last_checkpoints (l : list string) (sv : tf_train.Saver) : tf_train.Saver :=
  {| tf_train.max_to_keep := tf_train.max_to_keep sv;
     tf_train.var_signatures := tf_train.var_signatures sv;
     tf_train.last_checkpoints := l |}.

(** How [save] keeps the list of retained checkpoints: with [max_to_keep]
    zero nothing is recorded and nothing is ever deleted; otherwise the new
    path goes last (an earlier entry of the same name is dropped) and, when
    the list is longer than [max_to_keep], its oldest entry leaves the list
    and is returned for deletion. *)
Definition record_last_checkpoint (sv : tf_train.Saver) (latest : string)
  : tf_train.Saver * option string :=
  match tf_train.max_to_keep sv with
  | O => (sv, None)
  | S _ =>
      let l := filter (λ q, q ≠ latest) (tf_train.last_checkpoints sv) ++ [latest] in
      if (tf_train.max_to_keep sv <? length l)%nat then
        match l with
        | oldest :: l' => (with_last_checkpoints l' sv, Some oldest)
        | [] => (with_last_checkpoints l sv, None)
        end
      else (with_last_checkpoints l sv, None)
  end.

(** What [save] writes: the values the session holds for the variables of
    the saver, and the global step. *)
Definition snapshot (sv : tf_train.Saver) (s : Session) : CheckpointData :=
  {| ck_variables := filter (λ kv, kv.1 ∈ tf_train.var_list sv) (variables s);
     ck_global_step := global_step s |}.

(** The state file lists the retained checkpoints and always ends with the
    latest one.  The paths are kept as they were given to [save];
    TensorFlow writes them relative to the directory and joins them with
    it again on reading, which names the same files. *)
Definition checkpoint_state_for (retained : list string) (latest : string) : CheckpointState :=
  {| model_checkpoint_path := latest;
     all_model_checkpoint_paths :=
       if bool_decide (last retained = Some latest) then retained
       else retained ++ [latest] |}.

(** The files after [save]: the checkpoint is under the prefix
    [save_path], the state file of its directory names it, and the
    checkpoint that left the retained list is deleted. *)
Definition fs_after_save (sv : tf_train.Saver) (s : Session) (save_path : string)
    (f : FileSystem) : FileSystem :=
  let '(sv', evicted) := record_last_checkpoint sv save_path in
  let files := <[save_path := snapshot sv s]> (checkpoint_files f) in
  {| directories := directories f;
     checkpoint_files := match evicted with
                         | Some old => delete old files
                         | None => files
                         end;
     checkpoint_states :=
       <[dirname save_path :=
           checkpoint_state_for (tf_train.last_checkpoints sv') save_path]>
         (checkpoint_states f);
     graph_defs := graph_defs f;
     exported_models := exported_models f |}.

(** [self.saver.save(sess, save_path)].  The save fails, writing nothing,
    when the directory of [save_path] does not exist ([ValueError]) or a
    variable of the saver has no value in the session
    ([FailedPreconditionError]).  Otherwise the files are written and the
    saver object, held in [self.saver], is left with its new list of
    retained checkpoints. *)
Definition saver_save (sv : tf_train.Saver) (sess : option sess_ref) (save_path : string) : M unit :=
  match sess with
  | None => raise (TypeError "'sess' must be a Session; None")
  | Some r =>
      emit (EvSave r save_path) ;;
      w <- get_world ;;
      if negb (is_directory (fs w) (dirname save_path)) then
        raise (ValueError ("Parent directory of " +:+ save_path
                           +:+ " doesn't exist, can't save."))
      else if negb (bool_decide (tf_train.var_list sv
                                 ⊆ dom (variables (get_session w r)))) then
        raise (FailedPreconditionError "Attempting to use uninitialized value")
      else
        put_fs (fs_after_save sv (get_session w r) save_path (fs w)) ;;
        assign (set_saver (Some (record_last_checkpoint sv save_path).1))
  end.

(** The session after a restore: the variables of the saver take the values
    of the checkpoint, the others keep theirs. *)
Definition restored (sv : tf_train.Saver) (data : CheckpointData) (s : Session) : Session :=
  {| variables :=
       filter (λ kv, kv.1 ∈ tf_train.var_list sv) (ck_variables data) ∪ variables s;
     global_step := ck_global_step data |}.

(** Every variable of the saver has in the checkpoint the element type and
    shape the graph gives it. *)
Definition signatures_match (sv : tf_train.Saver) (data : CheckpointData) : Prop :=
  map_Forall (λ name sig, signature_of <$> ck_variables data !! name = Some sig)
    (tf_train.var_signatures sv).

(** The session a restore leaves when it fails on the shape or type of a
    variable: of the variables whose checkpoint entry fits, those the
    framework had already assigned have the value of the checkpoint, and
    so has the global step if it was among them; the rest is as before. *)
Definition partly_restored (sv : tf_train.Saver) (data : CheckpointData) (s : Session)
  : Session :=
  let assigned := assigned_before_failure sv data s in
  {| variables :=
       filter (λ kv, kv.1 ∈ assigned
                     ∧ tf_train.var_signatures sv !! kv.1 = Some (signature_of kv.2))
              (ck_variables data)
       ∪ variables s;
     global_step :=
       if bool_decide ("global_step" ∈ assigned) then ck_global_step data
       else global_step s |}.

(** [self.saver.restore(sess, save_path)]: [ValueError] when there is no
    checkpoint under the prefix; [NotFoundError] when the checkpoint lacks
    a variable of the saver (nothing is assigned);
    [InvalidArgumentError] when a variable has another shape or type in
    the checkpoint than in the graph (some variables may have been
    assigned by then). *)
Definition saver_restore (sv : tf_train.Saver) (sess : option sess_ref) (save_path : string) : M unit :=
  r <- attr_of sess "run" ;;
  emit (EvRestore r save_path) ;;
  w <- get_world ;;
  match checkpoint_files (fs w) !! save_path with
  | None =>
      raise (ValueError ("The passed save_path is not a valid checkpoint: " +:+ save_path))
  | Some data =>
      if bool_decide (tf_train.var_list sv ⊆ dom (ck_variables data)) then
        if bool_decide (signatures_match sv data) then
          put_sessions (<[r := restored sv data (get_session w r)]> (sessions w))
        else
          put_sessions (<[r := partly_restored sv data (get_session w r)]> (sessions w)) ;;
          raise (InvalidArgumentError
                   "Assign requires shapes of both tensors to match.")
      else raise (NotFoundError "Key not found in checkpoint")
  end.

(** [tf.train.get_checkpoint_state(checkpoint_dir)]: the state file of the
    directory, [None] when there is none. *)
Definition get_checkpoint_state (checkpoint_dir : string) : M (option CheckpointState) :=
  emit (EvGetCheckpointState checkpoint_dir) ;;
  w <- get_world ;;
  ret (checkpoint_states (fs w) !! checkpoint_dir).

(** The files after [write_graph], which makes [logdir] if it is not there. *)
Definition fs_after_write_graph (g : Graph) (logdir name : string) (as_text : bool)
    (f : FileSystem) : FileSystem :=
  {| directories := with_directory logdir (directories f);
     checkpoint_files := checkpoint_files f;
     checkpoint_states := checkpoint_states f;
     graph_defs := <[path_join logdir name := (g, as_text)]> (graph_defs f);
     exported_models := exported_models f |}.

(** [tf.train.write_graph(graph, logdir, name, as_text)]. *)
Definition write_graph (g : option Graph) (logdir name : string) (as_text : bool) : M unit :=
  g <- attr_of g "as_graph_def" ;;
  emit (EvWriteGraph g logdir name as_text) ;;
  w <- get_world ;;
  put_fs (fs_after_write_graph g logdir name as_text (fs w)).

Definition fs_after_export (output_filepath : string) (settings : SerializationSettings)
    (g : Graph) (s : Session) (f : FileSystem) : FileSystem :=
  let model := {| em_graph := g; em_session := s; em_settings := settings |} in
  {| directories := directories f;
     checkpoint_files := checkpoint_files f;
     checkpoint_states := checkpoint_states f;
     graph_defs := graph_defs f;
     exported_models :=
       foldr (λ fmt m, <[output_filepath +:+ "." +:+ fmt := model]> m)
             (exported_models f) (export_formats settings) |}.

(** Modelled from the spec: [export_policy_model] (mlagents.model_serialization)
    is not in the source at hand.  The spec: it "serializes the graph/session
    into one or more deployable inference formats at the given path prefix".
    One file per format of the settings, named by the prefix and the format. *)
Definition export_policy_model (output_filepath : string) (settings : SerializationSettings)
    (g : option Graph) (sess : option sess_ref) : M unit :=
  g <- attr_of g "as_default" ;;
  r <- attr_of sess "run" ;;
  emit (EvExport output_filepath settings g r) ;;
  w <- get_world ;;
  put_fs (fs_after_export output_filepath settings g (get_session w r) (fs w)).

(** ** The policy *)

Definition with_global_step (n : Z) (s : Session) : Session :=
  {| variables := variables s; global_step := n |}.

(** Modelled from the spec: [TFPolicy._set_step] is not in the source at
    hand.  The spec gives the policy a "current training step counter";
    the method sets it, in the session of the policy. *)
Definition _set_step (p : TFPolicy.t) (step : Z) : M unit :=
  emit (EvSetStep (TFPolicy.sess p) step) ;;
  w <- get_world ;;
  put_sessions (<[TFPolicy.sess p :=
                    with_global_step step (get_session w (TFPolicy.sess p))]> (sessions w)).

(** Modelled from the spec: [TFPolicy.get_current_step], the value of the
    step counter in the session of the policy. *)
Definition get_current_step (p : TFPolicy.t) : M Z :=
  w <- get_world ;;
  ret (global_step (get_session w (TFPolicy.sess p))).

(** Modelled from the spec: [TFPolicy._initialize_graph], what [maybe_load]
    does when it "initializes fresh": every variable of the graph takes the
    value of its initializer and the step counter starts at zero.  The file
    system is not used. *)
Definition _initialize_graph (p : TFPolicy.t) : M unit :=
  emit (EvInitializeGraph (TFPolicy.sess p)) ;;
  w <- get_world ;;
  put_sessions (<[TFPolicy.sess p :=
                    {| variables := initial_values (TFPolicy.graph p);
                       global_step := 0 |}]> (sessions w)).

End Framework.

(** ** The Saver *)

Section Saver.
Context `{!Runtime}.

(** [TFSaver.__init__] (lines 21 to 37); its [behavior_spec] argument is
    not used. *)
Definition __init__ (trainer_settings : TrainerSettings.t) (model_path : string)
    (load : bool) : TFSaver :=
  {| model_path := model_path;
     initialize_path := TrainerSettings.init_path trainer_settings;
     _keep_checkpoints := TrainerSettings.keep_checkpoints trainer_settings;
     load := load;
     policy := None;
     graph := None;
     sess := None;
     saver := None |}.

(** The property [unregistered] (lines 39 to 41). *)
Definition unregistered (s : TFSaver) : bool :=
  match policy s with
  | None => true
  | Some _ => false
  end.

(** [register] (lines 43 to 49). *)
Definition register (module : option TFPolicy.t) : M unit :=
  match module with
  | Some m =>
      assign (set_policy (Some m)) ;;
      s <- get_self ;;
      p <- attr_of (policy s) "graph" ;;
      assign (set_graph (Some (TFPolicy.graph p))) ;;
      s <- get_self ;;
      p <- attr_of (policy s) "sess" ;;
      assign (set_sess (Some (TFPolicy.sess p))) ;;
      as_default (λ g,
        s <- get_self ;;
        sv <- tf_train_Saver g (_keep_checkpoints s) ;;
        assign (set_saver (Some sv)))
  | None => ret tt
  end.

(** [export] (lines 68 to 79). *)
Definition export (output_filepath : string) (settings : SerializationSettings) : M unit :=
  s <- get_self ;;
  export_policy_model output_filepath settings (graph s) (sess s).

(** [save_checkpoint] (lines 51 to 66); [if self.saver:] holds for any saver
    object and fails for [None]. *)
Definition save_checkpoint (checkpoint_path : string) (settings : SerializationSettings) : M unit :=
  as_default (λ _,
    s <- get_self ;;
    match saver s with
    | Some sv => saver_save sv (sess s) (checkpoint_path +:+ ".ckpt")
    | None => ret tt
    end ;;
    s <- get_self ;;
    write_graph (graph s) (model_path s) "raw_graph_def.pb" false) ;;
  export checkpoint_path settings.

(** The text of the warning (lines 136 to 138), the three literals joined
    as Python joins them. *)
Definition version_warning (loaded_ver : Z * Z * Z) (version : string) : string :=
  let '(major, minor, patch) := loaded_ver in
  "The model checkpoint you are loading from was saved with ML-Agents version "
  +:+ str_of_int major +:+ "." +:+ str_of_int minor +:+ "." +:+ str_of_int patch
  +:+ " but your current ML-Agents"
  +:+ "version is " +:+ version +:+ ". Model may not behave properly.".

(** [_check_model_version] (lines 125 to 139): the three tensors are
    evaluated in turn, then the version string is converted, then the two
    tuples are compared; an exception of an evaluation or of the
    conversion is not caught. *)
Definition _check_model_version (version : string) : M unit :=
  s <- get_self ;;
  p <- attr_of (policy s) "version_tensors" ;;
  match TFPolicy.version_tensors p with
  | Some (t0, t1, t2) =>
      match sess s with
      | None =>
          raise (ValueError "Cannot evaluate tensor using `eval()`: No default session is registered.")
      | Some r =>
          w <- get_world ;;
          let session := get_session w r in
          v0 <- lift (t0 session) ;;
          v1 <- lift (t1 session) ;;
          v2 <- lift (t2 session) ;;
          current <- lift (_convert_version_string version) ;;
          if negb (bool_decide ([v0; v1; v2] = current))
          then emit (EvLogWarning (version_warning (v0, v1, v2) version))
          else ret tt
      end
  | None => ret tt
  end.

(** [except tf.errors.NotFoundError]. *)
Definition is_NotFoundError (e : exception) : bool :=
  match e with
  | NotFoundError _ => true
  | _ => false
  end.

(** The message of lines 99 to 102. *)
Definition missing_message (model_path : string) : string :=
  "The model " +:+ model_path +:+ " could not be loaded. Make "
  +:+ "sure you specified the right "
  +:+ "--run-id and that the previous run you are loading from had the same "
  +:+ "behavior names.".

(** The message of lines 108 to 112. *)
Definition mismatch_message (model_path : string) : string :=
  "The model " +:+ model_path +:+ " was found but could not be loaded. Make "
  +:+ "sure the model is from the same version of ML-Agents, has the same behavior parameters, "
  +:+ "and is using the same trainer configuration as the current run.".

Definition loading_message (model_path : string) : string :=
  "Loading model from " +:+ model_path +:+ ".".

(** [_load_graph] (lines 93 to 123); its argument [model_path] is named
    [model_path_arg] here, apart from the attribute [self.model_path]. *)
Definition _load_graph (model_path_arg : string) (reset_global_steps : bool) : M unit :=
  as_default (λ _,
    emit (EvLogInfo (loading_message model_path_arg)) ;;
    ckpt <- get_checkpoint_state model_path_arg ;;
    match ckpt with
    | None =>
        raise (raise_global "UnityPolicyException" (missing_message model_path_arg))
    | Some ckpt =>
        try_except
          (s <- get_self ;;
           sv <- attr_of (saver s) "restore" ;;
           saver_restore sv (sess s) (model_checkpoint_path ckpt))
          is_NotFoundError
          (raise (raise_global "UnityPolicyException" (mismatch_message model_path_arg))) ;;
        _check_model_version __version__ ;;
        if reset_global_steps then
          s <- get_self ;;
          p <- attr_of (policy s) "_set_step" ;;
          _set_step p 0 ;;
          s <- get_self ;;
          emit (EvLogInfo ("Starting training from step 0 and saving to "
                           +:+ model_path s +:+ "."))
        else
          s <- get_self ;;
          p <- attr_of (policy s) "get_current_step" ;;
          n <- get_current_step p ;;
          emit (EvLogInfo ("Resuming training from step " +:+ str_of_int n +:+ "."))
    end).

(** [maybe_load] (lines 81 to 91). *)
Definition maybe_load : M unit :=
  s <- get_self ;;
  let reset_steps := negb (load s) in
  match initialize_path s with
  | Some init =>
      _load_graph init reset_steps
  | None =>
      if load s then
        s <- get_self ;;
        _load_graph (model_path s) reset_steps
      else
        s <- get_self ;;
        p <- attr_of (policy s) "_initialize_graph" ;;
        _initialize_graph p
  end.

End Saver.

Arguments loading_message : simpl never.
Arguments missing_message : simpl never.
Arguments mismatch_message : simpl never.
Arguments version_warning : simpl never.
Arguments raise_global : simpl never.
Arguments dirname : simpl never.
Arguments path_join : simpl never.
Arguments normpath : simpl never.
Arguments str_of_int : simpl never.
Arguments is_directory : simpl never.
Arguments with_directory : simpl never.

(** ** The life of a Saver *)

Section Life.
Context `{!Runtime}.

(** The methods of the class, as the calls a client can make. *)
Inductive op :=
| OpRegister (module : option TFPolicy.t)
| OpSaveCheckpoint (checkpoint_path : string) (settings : SerializationSettings)
| OpExport (output_filepath : string) (settings : SerializationSettings)
| OpMaybeLoad
| OpLoadGraph (model_path : string) (reset_global_steps : bool)
| OpCheckModelVersion (version : string).

Definition run (o : op) : M unit :=
  match o with
  | OpRegister module => register module
  | OpSaveCheckpoint checkpoint_path settings => save_checkpoint checkpoint_path settings
  | OpExport output_filepath settings => export output_filepath settings
  | OpMaybeLoad => maybe_load
  | OpLoadGraph model_path reset_global_steps => _load_graph model_path reset_global_steps
  | OpCheckModelVersion version => _check_model_version version
  end.

(** The states a Saver can be in: built by [__init__], then any sequence of
    method calls, whether they return or raise, while the rest of the
    program (the trainer, the policy, other processes) changes the world
    in between. *)
Inductive reachable : St → Prop :=
| reachable_init trainer_settings model_path load w :
    reachable {| self := __init__ trainer_settings model_path load; world := w |}
| reachable_call o st :
    reachable st → reachable (snd (run o st))
| reachable_world st w :
    reachable st → reachable {| self := self st; world := w |}.

(** The framework saver of a registered Saver was built for the graph of
    its policy with the configured bound, and retains no more than it. *)
Definition saver_for (s : TFSaver) (p : TFPolicy.t) (sv : tf_train.Saver) : Prop :=
  tf_train.max_to_keep sv = _keep_checkpoints s
  ∧ tf_train.var_list sv = graph_variables (TFPolicy.graph p)
  ∧ (length (tf_train.last_checkpoints sv) ≤ tf_train.max_to_keep sv)%nat
  ∧ tf_train.var_signatures sv = graph_signatures (TFPolicy.graph p).

(** The four attributes set by [register] are set together. *)
Definition bound (s : TFSaver) : Prop :=
  match policy s with
  | None => graph s = None ∧ sess s = None ∧ saver s = None
  | Some p =>
      graph s = Some (TFPolicy.graph p)
      ∧ sess s = Some (TFPolicy.sess p)
      ∧ ∃ sv, saver s = Some sv ∧ saver_for s p sv
  end.

(** The events a computation adds to the log. *)
Definition new_events (st st' : St) : list event :=
  drop (length (log (world st))) (log (world st')).

Definition add_events (evs : list event) (w : World) : World :=
  {| sessions := sessions w; fs := fs w; log := log w ++ evs |}.

End Life.

(** ** The vocabulary of the statements *)

Section Vocabulary.
Context `{!Runtime}.

Definition fresh_saver (s : TFSaver) (g : Graph) : tf_train.Saver :=
  {| tf_train.max_to_keep := _keep_checkpoints s;
     tf_train.var_signatures := graph_signatures g;
     tf_train.last_checkpoints := [] |}.

(** The attributes after [register(m)] with [m] not [None]. *)
Definition registered (m : TFPolicy.t) (s : TFSaver) : TFSaver :=
  set_saver (Some (fresh_saver s (TFPolicy.graph m)))
    (set_sess (Some (TFPolicy.sess m))
       (set_graph (Some (TFPolicy.graph m))
          (set_policy (Some m) s))).

Definition no_attribute (attr : string) : exception :=
  AttributeError ("'NoneType' object has no attribute '" +:+ attr +:+ "'").

(** What [_check_model_version] does for a policy whose version tensors
    are evaluated in session [s]: the exception of the first evaluation
    that raises, else the exception of the conversion of the version
    string, else the warning it logs when the two tuples differ. *)
Definition version_outcome (p : TFPolicy.t) (s : Session) (version : string)
  : result (list event) :=
  match TFPolicy.version_tensors p with
  | Some (t0, t1, t2) =>
      match t0 s with
      | Raise e => Raise e
      | Ok v0 =>
          match t1 s with
          | Raise e => Raise e
          | Ok v1 =>
              match t2 s with
              | Raise e => Raise e
              | Ok v2 =>
                  match _convert_version_string version with
                  | Raise e => Raise e
                  | Ok current =>
                      Ok (if negb (bool_decide ([v0; v1; v2] = current))
                          then [EvLogWarning (version_warning (v0, v1, v2) version)]
                          else [])
                  end
              end
          end
      end
  | None => Ok []
  end.

(** Which events a computation may log, and that it leaves the attributes
    of [self] and the files as they are. *)
Definition frames {A} (P : event → Prop) (m : M A) : Prop :=
  ∀ st, self (m st).2 = self st
        ∧ fs (world (m st).2) = fs (world st)
        ∧ ∃ evs, log (world (m st).2) = log (world st) ++ evs ∧ Forall P evs.

Definition step_events (s : TFSaver) (r : sess_ref) (reset : bool) (restored_step : Z) : list event :=
  if reset then
    [EvSetStep r 0;
     EvLogInfo ("Starting training from step 0 and saving to " +:+ model_path s +:+ ".")]
  else
    [EvLogInfo ("Resuming training from step " +:+ str_of_int restored_step +:+ ".")].

Definition loaded_session (sv : tf_train.Saver) (data : CheckpointData) (reset : bool)
    (s : Session) : Session :=
  if reset then with_global_step 0 (restored sv data s) else restored sv data s.

(** The events of a load: log lines, one lookup of the checkpoint state
    of the path that is loaded, a restore, and a step reset to 0 only when
    asked for. *)
Definition load_event (path : string) (reset : bool) (e : event) : Prop :=
  match e with
  | EvLogInfo _ | EvLogWarning _ | EvRestore _ _ => True
  | EvGetCheckpointState d => d = path
  | EvSetStep _ n => n = 0 ∧ reset = true
  | _ => False
  end.

Definition is_initialize_graph (e : event) : Prop :=
  match e with
  | EvInitializeGraph _ => True
  | _ => False
  end.

(** The events of [maybe_load], by the branch the attributes select. *)
Definition maybe_load_event (s : TFSaver) (e : event) : Prop :=
  match initialize_path s with
  | Some init => load_event init (negb (load s)) e
  | None =>
      if load s then load_event (model_path s) (negb (load s)) e
      else is_initialize_graph e
  end.

(** [self.policy._initialize_graph()]. *)
Definition initialize_fresh : M unit :=
  s <- get_self ;;
  p <- attr_of (policy s) "_initialize_graph" ;;
  _initialize_graph p.

(** Where a resuming [maybe_load] loads from. *)
Definition load_source (s : TFSaver) : string :=
  match initialize_path s with
  | Some init => init
  | None => model_path s
  end.

Definition is_step_reset (e : event) : Prop :=
  match e with
  | EvSetStep _ _ | EvInitializeGraph _ => True
  | _ => False
  end.

(** C1, as the specification states it: with an initialization path, a successful
    [maybe_load] leaves the step counter of the policy at zero, whatever
    the load flag. *)
Definition init_path_always_resets_step : Prop :=
  ∀ st init p st',
    reachable st → policy (self st) = Some p →
    initialize_path (self st) = Some init →
    maybe_load st = (Ok tt, st') →
    global_step (get_session (world st') (TFPolicy.sess p)) = 0.

Definition unbound_name_error : exception :=
  NameError "name 'UnityPolicyException' is not defined".

(** The number of checkpoints on disk. *)
Definition checkpoints_on_disk (f : FileSystem) : nat :=
  size (entries_of (checkpoint_files f)).

(** C7, as the specification states it: [save_checkpoint] of a registered
    Saver returns, the checkpoint and the graph file are written, and, if
    there were no more than [keep_checkpoints] checkpoints on disk, there
    are no more than that many afterwards. *)
Definition save_checkpoint_keeps_at_most : Prop :=
  ∀ st checkpoint_path settings p,
    reachable st → policy (self st) = Some p →
    (checkpoints_on_disk (fs (world st)) ≤ _keep_checkpoints (self st))%nat →
    let st' := (save_checkpoint checkpoint_path settings st).2 in
    (save_checkpoint checkpoint_path settings st).1 = Ok tt
    ∧ is_Some (checkpoint_files (fs (world st')) !! (checkpoint_path +:+ ".ckpt"))
    ∧ is_Some (graph_defs (fs (world st'))
                 !! path_join (model_path (self st)) "raw_graph_def.pb")
    ∧ (checkpoints_on_disk (fs (world st')) ≤ _keep_checkpoints (self st))%nat.

(** Every variable of the graph has in the session a value of the element
    type and shape the graph gives it. *)
Definition session_fits (g : Graph) (s : Session) : Prop :=
  map_Forall (λ name sig, signature_of <$> variables s !! name = Some sig)
    (graph_signatures g).

(** No checkpoint the framework saver retains is the file [save_path]
    under another spelling. *)
Definition spelled_alike (sv : tf_train.Saver) (save_path : string) : Prop :=
  Forall (λ q, normpath q = normpath save_path → q = save_path)
    (tf_train.last_checkpoints sv).

(** The attributes [__init__] sets from its arguments. *)
Definition configuration (s : TFSaver) : string * option string * nat * bool :=
  (model_path s, initialize_path s, _keep_checkpoints s, load s).

(** The attributes [register] takes from the policy. *)
Definition binding (s : TFSaver) : option TFPolicy.t * option Graph * option sess_ref :=
  (policy s, graph s, sess s).

(** What the framework saver was built with. *)
Definition saver_shape (s : TFSaver) : option (nat * gset string) :=
  (λ sv, (tf_train.max_to_keep sv, tf_train.var_list sv)) <$> saver s.

Definition is_register (o : op) : bool :=
  match o with
  | OpRegister _ => true
  | _ => false
  end.

Definition is_save_checkpoint (o : op) : bool :=
  match o with
  | OpSaveCheckpoint _ _ => true
  | _ => false
  end.

(** The body of the [try] of [_load_graph] (line 105). *)
Definition restore_attempt (ck : CheckpointState) : M unit :=
  s <- get_self ;;
  sv <- attr_of (saver s) "restore" ;;
  saver_restore sv (sess s) (model_checkpoint_path ck).

(** The state of a load once the checkpoint state has been looked up. *)
Definition looked_up (path : string) (st : St) : St :=
  {| self := self st;
     world := add_events [EvLogInfo (loading_message path); EvGetCheckpointState path]
                (world st) |}.

(** C4, as the specification states it: once the restore of a load has
    succeeded, [_check_model_version] never raises and [_load_graph] runs
    to completion. *)
Definition version_check_never_raises : Prop :=
  ∀ st p path reset ck st1,
    reachable st → policy (self st) = Some p →
    checkpoint_states (fs (world st)) !! path = Some ck →
    restore_attempt ck (looked_up path st) = (Ok tt, st1) →
    (∀ version, (_check_model_version version st1).1 = Ok tt)
    ∧ (_load_graph path reset st).1 = Ok tt.

(** The calls a load makes up to and including the restore. *)
Definition is_load_prologue (e : event) : Prop :=
  match e with
  | EvLogInfo _ | EvGetCheckpointState _ | EvRestore _ _ => True
  | _ => False
  end.

(** The checkpoint a load from [path] would restore, if it is there and
    has every variable of the framework saver. *)
Definition loadable (s : TFSaver) (f : FileSystem) (path : string) : Prop :=
  ∃ sv ck data,
    saver s = Some sv
    ∧ checkpoint_states f !! path = Some ck
    ∧ checkpoint_files f !! model_checkpoint_path ck = Some data
    ∧ tf_train.var_list sv ⊆ dom (ck_variables data).

(** The framework save called by [save_checkpoint] (line 61). *)
Definition save_attempt (checkpoint_path : string) : M unit :=
  s <- get_self ;;
  match saver s with
  | Some sv => saver_save sv (sess s) (checkpoint_path +:+ ".ckpt")
  | None => ret tt
  end.

End Vocabulary.

(** ** Sample runs *)

Definition is_digit (c : Ascii.ascii) : bool :=
  let n := Ascii.nat_of_ascii c in ((48 <=? n) && (n <=? 57))%nat.

Definition is_lower (c : Ascii.ascii) : bool :=
  let n := Ascii.nat_of_ascii c in ((97 <=? n) && (n <=? 122))%nat.

Definition is_dot (c : Ascii.ascii) : bool := Ascii.eqb c (Ascii.ascii_of_nat 46).

(** The class of a character for [LooseVersion]: digit, lower-case letter,
    or anything else. *)
Definition version_class (c : Ascii.ascii) : nat :=
  if is_digit c then 0%nat else if is_lower c then 1%nat else 2%nat.

(** The components of a version string as [LooseVersion] parses it: the
    maximal runs of digits, of lower-case letters and of other characters,
    the dots dropped. *)
Fixpoint loose_components (cs : list Ascii.ascii) (current : list Ascii.ascii)
  : list (list Ascii.ascii) :=
  let close := match current with [] => [] | _ => [rev current] end in
  match cs with
  | [] => close
  | c :: cs' =>
      if is_dot c then close ++ loose_components cs' []
      else
        match current with
        | [] => loose_components cs' [c]
        | last_char :: _ =>
            if Nat.eqb (version_class last_char) (version_class c)
            then loose_components cs' (c :: current)
            else close ++ loose_components cs' [c]
        end
  end.

(** [int(component)]: the number of a run of digits, [ValueError] for
    anything else. *)
Definition int_of_component (comp : list Ascii.ascii) : result Z :=
  if (forallb is_digit comp && negb (Nat.eqb (length comp) 0))%bool then
    Ok (fold_left (λ acc c, 10 * acc + Z.of_nat (Ascii.nat_of_ascii c - 48)) comp 0)
  else
    Raise (ValueError ("invalid literal for int() with base 10: '"
                       +:+ String.string_of_list_ascii comp +:+ "'")).

Fixpoint ints_of_components (comps : list (list Ascii.ascii)) : result (list Z) :=
  match comps with
  | [] => Ok []
  | comp :: comps' =>
      match int_of_component comp with
      | Raise e => Raise e
      | Ok n =>
          match ints_of_components comps' with
          | Raise e => Raise e
          | Ok ns => Ok (n :: ns)
          end
      end
  end.

(** Modelled from the spec: [TFPolicy._convert_version_string] is not in
    the source at hand.  The spec has a "version tuple" that is "compared
    against the current runtime version"; this converter reads the version
    string as the [LooseVersion] of distutils, which [tf_saver.py] imports
    (line 2), and takes the first three components as integers.  A
    component that is not a number makes [int] raise [ValueError]; the
    empty string is not parsed at all and has no [version] attribute. *)
Definition convert_loose_version (version : string) : result (list Z) :=
  match version with
  | EmptyString =>
      Raise (AttributeError "'LooseVersion' object has no attribute 'version'")
  | _ =>
      ints_of_components
        (take 3 (loose_components (String.list_ascii_of_string version) []))
  end.

(** A runtime of version 0.20.0, in which a restore that fails on a shape
    has assigned every other variable and the global step. *)
Definition sample_runtime : Runtime :=
  {| __version__ := "0.20.0";
     _convert_version_string := convert_loose_version;
     assigned_before_failure := λ sv data s, {["global_step"]} ∪ tf_train.var_list sv |}.

(** The same runtime in a pre-release version. *)
Definition prerelease_runtime : Runtime :=
  {| __version__ := "1.2b3";
     _convert_version_string := convert_loose_version;
     assigned_before_failure := λ sv data s, {["global_step"]} ∪ tf_train.var_list sv |}.

Definition float32 (shape : list nat) (entries : list Z) : TensorValue :=
  {| dtype := "float32"; shape := shape; entries := entries |}.

Definition int32_scalar (n : Z) : TensorValue :=
  {| dtype := "int32"; shape := []; entries := [n] |}.

Definition sample_graph : Graph :=
  {| graph_name := "Brain";
     initial_values := {[ "dense/kernel" := float32 [2; 1]%nat [0; 0];
                          "dense/bias" := float32 [1]%nat [0];
                          "version/major" := int32_scalar 0;
                          "version/minor" := int32_scalar 20;
                          "version/patch" := int32_scalar 0 ]} |}.

Definition sample_policy : TFPolicy.t :=
  {| TFPolicy.graph := sample_graph;
     TFPolicy.sess := 1%nat;
     TFPolicy.version_tensors :=
       Some (variable_tensor "version/major", variable_tensor "version/minor",
             variable_tensor "version/patch") |}.

(** The session of the policy after 5000 steps of training with version 0.19.3. *)
Definition trained_session : Session :=
  {| variables := {[ "dense/kernel" := float32 [2; 1]%nat [3; -4];
                     "dense/bias" := float32 [1]%nat [7];
                     "version/major" := int32_scalar 0;
                     "version/minor" := int32_scalar 19;
                     "version/patch" := int32_scalar 3 ]};
     global_step := 5000 |}.

(** No file and no directory. *)
Definition empty_fs : FileSystem :=
  {| directories := ∅; checkpoint_files := ∅; checkpoint_states := ∅;
     graph_defs := ∅; exported_models := ∅ |}.

(** The directory [results/run] is there, with nothing in it. *)
Definition run_directory_fs : FileSystem :=
  {| directories := with_directory "results/run" ∅;
     checkpoint_files := ∅; checkpoint_states := ∅;
     graph_defs := ∅; exported_models := ∅ |}.

Definition sample_world : World :=
  {| sessions := {[ 1%nat := trained_session ]}; fs := run_directory_fs; log := [] |}.

Definition sample_settings : SerializationSettings :=
  {| export_formats := ["nn"; "onnx"]; capability_flags := [] |}.

Section Samples.
#[local] Existing Instance sample_runtime.

(** A Saver that resumes from [results/run], before and after [register]. *)
Definition resuming_settings : TrainerSettings.t :=
  {| TrainerSettings.init_path := None; TrainerSettings.keep_checkpoints := 2 |}.

Definition new_state : St :=
  {| self := __init__ resuming_settings "results/run" true; world := sample_world |}.

Definition registered_state : St := (register (Some sample_policy) new_state).2.

Definition saved_state : St :=
  (save_checkpoint "results/run/Brain-5000" sample_settings registered_state).2.

(** A later process: the files are those left by the save, the session of
    the policy is new. *)
Definition restarted_state : St :=
  (register (Some sample_policy)
     {| self := __init__ resuming_settings "results/run" true;
        world := {| sessions := ∅; fs := fs (world saved_state); log := [] |} |}).2.

(** A Saver given an initialization path, with the resume flag set, in a
    world where [results/run] holds the checkpoint saved above. *)
Definition init_resuming_settings : TrainerSettings.t :=
  {| TrainerSettings.init_path := Some "results/run";
     TrainerSettings.keep_checkpoints := 2 |}.

Definition init_resuming_state : St :=
  (register (Some sample_policy)
     {| self := __init__ init_resuming_settings "results/second" true;
        world := {| sessions := ∅; fs := fs (world saved_state); log := [] |} |}).2.

(** The same, without the resume flag. *)
Definition init_state : St :=
  (register (Some sample_policy)
     {| self := __init__ init_resuming_settings "results/second" false;
        world := {| sessions := ∅; fs := fs (world saved_state); log := [] |} |}).2.

(** A policy whose graph has one more layer than the saved one. *)
Definition wider_graph : Graph :=
  {| graph_name := "Brain";
     initial_values :=
       <["dense_1/kernel" := float32 [1]%nat [0]]> (initial_values sample_graph) |}.

Definition wider_policy : TFPolicy.t :=
  {| TFPolicy.graph := wider_graph;
     TFPolicy.sess := 1%nat;
     TFPolicy.version_tensors := TFPolicy.version_tensors sample_policy |}.

Definition mismatched_state : St :=
  (register (Some wider_policy)
     {| self := __init__ resuming_settings "results/run" true;
        world := {| sessions := ∅; fs := fs (world saved_state); log := [] |} |}).2.

(** The framework saver [register] builds for the sample policy. *)
Definition sample_saver : tf_train.Saver :=
  {| tf_train.max_to_keep := 2;
     tf_train.var_signatures := graph_signatures sample_graph;
     tf_train.last_checkpoints := [] |}.

(** What the save of the sample run leaves in [results/run]. *)
Definition sample_checkpoint_state : CheckpointState :=
  checkpoint_state_for ["results/run/Brain-5000.ckpt"] "results/run/Brain-5000.ckpt".

Definition sample_checkpoint : CheckpointData := snapshot sample_saver trained_session.

(** The framework saver [register] builds for the wider policy. *)
Definition wider_saver : tf_train.Saver :=
  {| tf_train.max_to_keep := 2;
     tf_train.var_signatures := graph_signatures wider_graph;
     tf_train.last_checkpoints := [] |}.

(** Three checkpoints in a row from a registered Saver. *)
Definition three_saves (st : St) : St :=
  (save_checkpoint "results/run/Brain-3" sample_settings
     (save_checkpoint "results/run/Brain-2" sample_settings
        (save_checkpoint "results/run/Brain-1" sample_settings st).2).2).2.

(** A Saver configured with [keep_checkpoints = 0]. *)
Definition keep_all_settings : TrainerSettings.t :=
  {| TrainerSettings.init_path := None; TrainerSettings.keep_checkpoints := 0 |}.

Definition keep_all_state : St :=
  (register (Some sample_policy)
     {| self := __init__ keep_all_settings "results/run" false;
        world := sample_world |}).2.

(** A registered Saver in a directory whose state file names a checkpoint
    that is no longer there. *)
Definition stale_fs : FileSystem :=
  {| directories := with_directory "results/run" ∅;
     checkpoint_files := ∅;
     checkpoint_states := <["results/run" := sample_checkpoint_state]> ∅;
     graph_defs := ∅;
     exported_models := ∅ |}.

Definition stale_state : St :=
  (register (Some sample_policy)
     {| self := __init__ resuming_settings "results/run" true;
        world := {| sessions := ∅; fs := stale_fs; log := [] |} |}).2.

(** A Saver whose graph and session are set and whose framework saver is not. *)
Definition saverless_state : St :=
  {| self := set_saver None (self registered_state); world := sample_world |}.

(** Two checkpoints, then a second [register] of the same policy. *)
Definition reregistered_state : St :=
  (register (Some sample_policy)
     (save_checkpoint "results/run/Brain-2" sample_settings
        (save_checkpoint "results/run/Brain-1" sample_settings
           registered_state).2).2).2.

(** A registered Saver where the directory [results/run] does not exist. *)
Definition no_directory_state : St :=
  (register (Some sample_policy)
     {| self := __init__ resuming_settings "results/run" true;
        world := {| sessions := {[ 1%nat := trained_session ]};
                    fs := empty_fs; log := [] |} |}).2.

(** A policy with the variables of the saved one, the kernel in another
    shape, resuming from the saved checkpoint with its own values. *)
Definition reshaped_graph : Graph :=
  {| graph_name := "Brain";
     initial_values :=
       <["dense/kernel" := float32 [1; 2]%nat [0; 0]]> (initial_values sample_graph) |}.

Definition reshaped_policy : TFPolicy.t :=
  {| TFPolicy.graph := reshaped_graph;
     TFPolicy.sess := 1%nat;
     TFPolicy.version_tensors := TFPolicy.version_tensors sample_policy |}.

Definition reshaped_state : St :=
  (register (Some reshaped_policy)
     {| self := __init__ resuming_settings "results/run" true;
        world := {| sessions := {[ 1%nat := {| variables := initial_values reshaped_graph;
                                               global_step := 0 |} ]};
                    fs := fs (world saved_state); log := [] |} |}).2.

(** The Saver of the later process, its [model_path] spelled with a
    trailing separator. *)
Definition trailing_separator_state : St :=
  (register (Some sample_policy)
     {| self := __init__ resuming_settings "results/run/" true;
        world := {| sessions := ∅; fs := fs (world saved_state); log := [] |} |}).2.

End Samples.

(** ** Auxiliary facts *)

Ltac unfold_monad :=
  unfold as_default, attr_of, bind, ret, raise, lift, try_except, get_self, get_world,
    emit, put_sessions, put_fs, assign in *.

Lemma unbound_name msg :
  raise_global "UnityPolicyException" msg
  = NameError "name 'UnityPolicyException' is not defined".
Proof. reflexivity. Qed.

Lemma new_events_app st st' evs :
  log (world st') = log (world st) ++ evs → new_events st st' = evs.
Proof.
  intros E. unfold new_events. rewrite E. apply drop_app_length.
Qed.

Lemma new_events_same st : new_events st st = [].
Proof. unfold new_events. apply drop_all. Qed.

(** Paths that name the same file are the same key. *)
Lemma path_lookup_insert_same {V} (m : PathMap V) k k' v :
  normpath k = normpath k' → <[k := v]> m !! k' = Some v.
Proof.
  intros E. unfold lookup, insert, PathMap_lookup, PathMap_insert. simpl.
  rewrite E. apply lookup_insert_eq.
Qed.

Lemma path_lookup_insert_eq {V} (m : PathMap V) k v : <[k := v]> m !! k = Some v.
Proof. by apply path_lookup_insert_same. Qed.

Lemma path_lookup_insert_ne {V} (m : PathMap V) k k' v :
  normpath k ≠ normpath k' → <[k := v]> m !! k' = m !! k'.
Proof.
  intros E. unfold lookup, insert, PathMap_lookup, PathMap_insert. simpl.
  by apply lookup_insert_ne.
Qed.

Lemma path_lookup_delete_same {V} (m : PathMap V) k k' :
  normpath k = normpath k' → delete k m !! k' = None.
Proof.
  intros E. unfold lookup, delete, PathMap_lookup, PathMap_delete. simpl.
  rewrite E. apply lookup_delete_eq.
Qed.

Lemma path_lookup_delete_ne {V} (m : PathMap V) k k' :
  normpath k ≠ normpath k' → delete k m !! k' = m !! k'.
Proof.
  intros E. unfold lookup, delete, PathMap_lookup, PathMap_delete. simpl.
  by apply lookup_delete_ne.
Qed.

Lemma path_lookup_same {V} (m : PathMap V) k k' :
  normpath k = normpath k' → m !! k = m !! k'.
Proof. intros E. unfold lookup, PathMap_lookup. by rewrite E. Qed.

Section Retention.
Context `{!Runtime}.

Lemma record_last_max sv p :
  tf_train.max_to_keep (record_last_checkpoint sv p).1 = tf_train.max_to_keep sv.
Proof.
  unfold record_last_checkpoint. destruct (tf_train.max_to_keep sv) eqn:E;
    repeat case_match; simpl; congruence.
Qed.

Lemma record_last_signatures sv p :
  tf_train.var_signatures (record_last_checkpoint sv p).1 = tf_train.var_signatures sv.
Proof.
  unfold record_last_checkpoint. repeat case_match; reflexivity.
Qed.

Lemma record_last_vars sv p :
  tf_train.var_list (record_last_checkpoint sv p).1 = tf_train.var_list sv.
Proof. unfold tf_train.var_list. by rewrite record_last_signatures. Qed.

Lemma length_filter_le {A} (P : A → Prop) `{!∀ x, Decision (P x)} (l : list A) :
  (length (filter P l) ≤ length l)%nat.
Proof.
  induction l as [|x l IH]; simpl; [lia|].
  rewrite filter_cons. case_decide; simpl; lia.
Qed.

Lemma record_last_length sv p :
  (length (tf_train.last_checkpoints sv) ≤ tf_train.max_to_keep sv)%nat →
  (length (tf_train.last_checkpoints (record_last_checkpoint sv p).1)
   ≤ tf_train.max_to_keep sv)%nat.
Proof.
  intros Hlen. unfold record_last_checkpoint.
  destruct (tf_train.max_to_keep sv) as [|k] eqn:E; [simpl; lia|].
  pose proof (length_filter_le (λ q, q ≠ p) (tf_train.last_checkpoints sv)) as Hf.
  destruct (filter (λ q, q ≠ p) (tf_train.last_checkpoints sv) ++ [p]) as [|x l] eqn:El.
  - destruct (filter _ _); discriminate.
  - assert (length (x :: l) = S (length (filter (λ q, q ≠ p) (tf_train.last_checkpoints sv))))
      as Hl by (rewrite <- El, length_app; simpl; lia).
    simpl in Hl. case_match; simpl.
    + lia.
    + apply Nat.ltb_ge in H0. simpl in H0. lia.
Qed.

Lemma record_last_newest sv p :
  tf_train.max_to_keep sv ≠ O →
  last (tf_train.last_checkpoints (record_last_checkpoint sv p).1) = Some p.
Proof.
  intros Hk. unfold record_last_checkpoint.
  destruct (tf_train.max_to_keep sv) as [|k] eqn:E; [done|].
  set (f := filter (λ q, q ≠ p) (tf_train.last_checkpoints sv)).
  destruct (f ++ [p]) as [|x l] eqn:El.
  - destruct f; discriminate.
  - case_match; simpl.
    + apply Nat.ltb_lt in H0. simpl in H0.
      destruct f as [|y f']; simpl in El.
      * inversion El; subst. simpl in H0. lia.
      * inversion El; subst. apply last_snoc.
    + rewrite <- El. apply last_snoc.
Qed.

(** Without a bound the framework saver records nothing and evicts nothing. *)
Lemma record_last_unbounded sv p :
  tf_train.max_to_keep sv = O → record_last_checkpoint sv p = (sv, None).
Proof. intros Hk. unfold record_last_checkpoint. by rewrite Hk. Qed.

(** The evicted checkpoint was retained, is not the one being written, and
    leaves a full list behind. *)
Lemma record_last_evicted sv p old :
  (record_last_checkpoint sv p).2 = Some old →
  old ≠ p
  ∧ old ∈ tf_train.last_checkpoints sv
  ∧ tf_train.max_to_keep sv ≠ O
  ∧ ∀ q, q ∈ tf_train.last_checkpoints sv →
         q ∉ tf_train.last_checkpoints (record_last_checkpoint sv p).1 →
         q = old ∨ q = p.
Proof.
  unfold record_last_checkpoint.
  destruct (tf_train.max_to_keep sv) as [|k] eqn:E; [done|].
  set (f := filter (λ q, q ≠ p) (tf_train.last_checkpoints sv)).
  destruct (f ++ [p]) as [|x l] eqn:El.
  - destruct f; discriminate.
  - case_match; simpl; [|done]. intros [= ->].
    apply Nat.ltb_lt in H0. simpl in H0.
    destruct f as [|y f'] eqn:Ef; simpl in El; inversion El; subst.
    + simpl in H0. lia.
    + assert (old ∈ f) as Hin by (rewrite Ef; left).
      unfold f in Hin. apply list_elem_of_filter in Hin.
      split; [tauto|]. split; [tauto|]. split; [done|].
      intros q Hq Hnq. destruct (decide (q = p)) as [|Hne]; [by right|left].
      assert (q ∈ f) as Hin' by (unfold f; apply list_elem_of_filter; done).
      rewrite Ef in Hin'. apply elem_of_cons in Hin' as [|Hin']; [done|].
      exfalso. apply Hnq. apply elem_of_app. by left.
Qed.

Lemma record_last_evicted_full sv p old :
  (length (tf_train.last_checkpoints sv) ≤ tf_train.max_to_keep sv)%nat →
  (record_last_checkpoint sv p).2 = Some old →
  length (tf_train.last_checkpoints (record_last_checkpoint sv p).1)
  = tf_train.max_to_keep sv.
Proof.
  intros Hlen. unfold record_last_checkpoint.
  destruct (tf_train.max_to_keep sv) as [|k] eqn:E; [done|].
  pose proof (length_filter_le (λ q, q ≠ p) (tf_train.last_checkpoints sv)) as Hf.
  destruct (filter (λ q, q ≠ p) (tf_train.last_checkpoints sv) ++ [p]) as [|x l] eqn:El.
  - destruct (filter _ _); discriminate.
  - assert (length (x :: l) = S (length (filter (λ q, q ≠ p) (tf_train.last_checkpoints sv))))
      as Hl by (rewrite <- El, length_app; simpl; lia).
    simpl in Hl. case_match; simpl; [|done]. intros _.
    apply Nat.ltb_lt in H0. simpl in H0. lia.
Qed.

Lemma record_last_kept sv p :
  (record_last_checkpoint sv p).2 = None →
  ∀ q, q ∈ tf_train.last_checkpoints sv →
       q ∉ tf_train.last_checkpoints (record_last_checkpoint sv p).1 →
       q = p ∨ tf_train.max_to_keep sv = O.
Proof.
  unfold record_last_checkpoint.
  destruct (tf_train.max_to_keep sv) as [|k] eqn:E; [by right|].
  set (f := filter (λ q, q ≠ p) (tf_train.last_checkpoints sv)).
  intros Hn q Hq Hnq. left.
  destruct (decide (q = p)) as [|Hne]; [done|].
  assert (q ∈ f) as Hin by (unfold f; apply list_elem_of_filter; done).
  exfalso. apply Hnq.
  destruct (f ++ [p]) as [|x l] eqn:El.
  - destruct f; discriminate.
  - case_match; simpl in *; [done|]. rewrite <- El. apply elem_of_app. by left.
Qed.

Lemma fs_after_save_state sv s save_path f :
  checkpoint_states (fs_after_save sv s save_path f) !! dirname save_path
  = Some (checkpoint_state_for
            (tf_train.last_checkpoints (record_last_checkpoint sv save_path).1) save_path).
Proof.
  unfold fs_after_save. destruct (record_last_checkpoint sv save_path) as [sv' ev].
  simpl. apply path_lookup_insert_eq.
Qed.

(** The checkpoints on disk after a save: the evicted one is gone, the new
    one is there, the others are as they were. *)
Lemma fs_after_save_files sv s save_path f q :
  checkpoint_files (fs_after_save sv s save_path f) !! q
  = if bool_decide (Some (normpath q) = normpath <$> (record_last_checkpoint sv save_path).2)
    then None
    else if bool_decide (normpath q = normpath save_path) then Some (snapshot sv s)
    else checkpoint_files f !! q.
Proof.
  unfold fs_after_save.
  destruct (record_last_checkpoint sv save_path) as [sv' [old|]]; simpl.
  - case_bool_decide as Hev.
    + apply path_lookup_delete_same. congruence.
    + rewrite path_lookup_delete_ne by congruence.
      case_bool_decide as Hq.
      * by apply path_lookup_insert_same.
      * apply path_lookup_insert_ne. congruence.
  - case_bool_decide as Hq.
    + by apply path_lookup_insert_same.
    + apply path_lookup_insert_ne. congruence.
Qed.

(** The checkpoint just written is on disk, unless the save evicted it
    under another spelling. *)
Lemma fs_after_save_file sv s save_path f :
  spelled_alike sv save_path →
  checkpoint_files (fs_after_save sv s save_path f) !! save_path = Some (snapshot sv s).
Proof.
  intros Hsp. rewrite fs_after_save_files.
  rewrite bool_decide_eq_false_2; [by rewrite bool_decide_eq_true_2|].
  destruct (record_last_checkpoint sv save_path).2 as [old|] eqn:E; simpl; [|done].
  intros [= Hn].
  destruct (record_last_evicted sv save_path old E) as (Hne & Hin & _).
  unfold spelled_alike in Hsp. rewrite Forall_forall in Hsp.
  apply Hne. by apply Hsp.
Qed.

Lemma snapshot_lookup sv s v :
  v ∈ tf_train.var_list sv →
  ck_variables (snapshot sv s) !! v = variables s !! v.
Proof.
  intros Hv. unfold snapshot. simpl.
  destruct (variables s !! v) as [x|] eqn:E.
  - by apply map_lookup_filter_Some.
  - apply map_lookup_filter_None. left. done.
Qed.

Lemma snapshot_complete sv s :
  tf_train.var_list sv ⊆ dom (variables s) →
  tf_train.var_list sv ⊆ dom (ck_variables (snapshot sv s)).
Proof.
  intros Hsub v Hv. apply elem_of_dom. rewrite snapshot_lookup by done.
  apply elem_of_dom. by apply Hsub.
Qed.

Lemma restored_lookup sv data s v :
  v ∈ tf_train.var_list sv → is_Some (ck_variables data !! v) →
  variables (restored sv data s) !! v = ck_variables data !! v.
Proof.
  intros Hv [x Hx]. unfold restored. simpl. rewrite Hx.
  apply lookup_union_Some_l. by apply map_lookup_filter_Some.
Qed.

(** Restoring what was saved gives back the values that were saved. *)
Lemma restored_snapshot sv sv' s0 s v :
  tf_train.var_list sv' = tf_train.var_list sv →
  tf_train.var_list sv ⊆ dom (variables s0) →
  v ∈ tf_train.var_list sv →
  variables (restored sv' (snapshot sv s0) s) !! v = variables s0 !! v.
Proof.
  intros Hvars Hsub Hv.
  rewrite restored_lookup.
  - by apply snapshot_lookup.
  - by rewrite Hvars.
  - rewrite snapshot_lookup by done. apply elem_of_dom. by apply Hsub.
Qed.

Lemma graph_signatures_dom g : dom (graph_signatures g) = graph_variables g.
Proof. unfold graph_signatures, graph_variables. apply dom_fmap_L. Qed.

(** A session that fits the graph has a value for each of its variables. *)
Lemma session_fits_initialized g s :
  session_fits g s → graph_variables g ⊆ dom (variables s).
Proof.
  intros Hfit v Hv. rewrite <- graph_signatures_dom in Hv.
  apply elem_of_dom in Hv as [sig Hsig].
  specialize (Hfit v sig Hsig). simpl in Hfit.
  apply elem_of_dom. destruct (variables s !! v); [eauto|done].
Qed.

(** What was saved from a session that fits the graph has the signatures
    of the graph. *)
Lemma snapshot_signatures sv sv' s :
  tf_train.var_signatures sv' = tf_train.var_signatures sv →
  map_Forall (λ name sig, signature_of <$> variables s !! name = Some sig)
    (tf_train.var_signatures sv) →
  signatures_match sv' (snapshot sv s).
Proof.
  intros Hsame Hfit name sig Hsig. rewrite Hsame in Hsig.
  rewrite snapshot_lookup; [by apply Hfit|].
  unfold tf_train.var_list. apply elem_of_dom. eauto.
Qed.

End Retention.

Lemma get_session_insert ss f l r s :
  get_session {| sessions := <[r:=s]> ss; fs := f; log := l |} r = s.
Proof. unfold get_session. simpl. by rewrite lookup_insert_eq. Qed.

Lemma frames_silent {A} P (m : M A) :
  (∀ st, self (m st).2 = self st
         ∧ fs (world (m st).2) = fs (world st)
         ∧ log (world (m st).2) = log (world st)) →
  frames P m.
Proof.
  intros Hm st. destruct (Hm st) as (? & ? & Hl). repeat split; try done.
  exists []. by rewrite app_nil_r.
Qed.

Lemma frames_ret {A} P (a : A) : frames P (ret a).
Proof. by apply frames_silent. Qed.

Lemma frames_raise {A} P e : frames P (@raise A e).
Proof. by apply frames_silent. Qed.

Lemma frames_lift {A} P (r : result A) : frames P (lift r).
Proof. by apply frames_silent. Qed.

Lemma frames_get_self P : frames P get_self.
Proof. by apply frames_silent. Qed.

Lemma frames_get_world P : frames P get_world.
Proof. by apply frames_silent. Qed.

Lemma frames_put_sessions P ss : frames P (put_sessions ss).
Proof. by apply frames_silent. Qed.

Lemma frames_attr_of {A} P (o : option A) attr : frames P (attr_of o attr).
Proof. destruct o; by apply frames_silent. Qed.

Lemma frames_emit (P : event → Prop) e : P e → frames P (emit e).
Proof.
  intros He st. repeat split; try done. exists [e]. split; [done|]. by constructor.
Qed.

Lemma frames_bind {A B} P (m : M A) (k : A → M B) :
  frames P m → (∀ a, frames P (k a)) → frames P (bind m k).
Proof.
  intros Hm Hk st. unfold bind.
  destruct (Hm st) as (Hs & Hf & evs & Hl & Hevs).
  destruct (m st) as [[a|e] st1]; simpl in *; [|by eauto 6].
  destruct (Hk a st1) as (Hs' & Hf' & evs' & Hl' & Hevs').
  repeat split; [congruence..|].
  exists (evs ++ evs'). split.
  - by rewrite Hl', Hl, app_assoc.
  - by apply Forall_app.
Qed.

Lemma frames_try_except {A} P (m : M A) catches handler :
  frames P m → frames P handler → frames P (try_except m catches handler).
Proof.
  intros Hm Hh st. unfold try_except.
  destruct (Hm st) as (Hs & Hf & evs & Hl & Hevs).
  destruct (m st) as [[a|e] st1]; simpl in *; [by eauto 6|].
  destruct (catches e); simpl; [|by eauto 6].
  destruct (Hh st1) as (Hs' & Hf' & evs' & Hl' & Hevs').
  repeat split; [congruence..|].
  exists (evs ++ evs'). split.
  - by rewrite Hl', Hl, app_assoc.
  - by apply Forall_app.
Qed.

Ltac frames_step :=
  lazymatch goal with
  | |- frames _ (bind _ _) => apply frames_bind; [|intros ?]
  | |- frames _ (ret _) => apply frames_ret
  | |- frames _ (raise _) => apply frames_raise
  | |- frames _ (lift _) => apply frames_lift
  | |- frames _ get_self => apply frames_get_self
  | |- frames _ get_world => apply frames_get_world
  | |- frames _ (put_sessions _) => apply frames_put_sessions
  | |- frames _ (attr_of _ _) => apply frames_attr_of
  | |- frames _ (emit _) => apply frames_emit; simpl; auto
  | |- frames _ (try_except _ _ _) => apply frames_try_except
  | |- frames _ (match ?x with _ => _ end) => destruct x
  | |- frames _ (if ?x then _ else _) => destruct x
  end.

(** ** The model on small inputs *)

Example dirname_of_checkpoint : dirname "results/run/Brain-5000.ckpt" = "results/run".
Proof. reflexivity. Qed.

Example dirname_without_directory : dirname "Brain-5000.ckpt" = "".
Proof. reflexivity. Qed.

Example dirname_of_root_file : dirname "/Brain" = "/".
Proof. reflexivity. Qed.

Example path_join_graph_file :
  path_join "results/run" "raw_graph_def.pb" = "results/run/raw_graph_def.pb".
Proof. reflexivity. Qed.

Example normpath_of_spellings :
  normpath <$> ["results/run/"; "results//run"; "./results/run"; "results/x/../run"]
  = ["results/run"; "results/run"; "results/run"; "results/run"]
  ∧ normpath <$> [""; "a/.."; "/"; "//"; "///a//b/"; "../a"; "/../a"]
    = ["."; "."; "/"; "//"; "/a/b"; "../a"; "/a"].
Proof. split; vm_compute; reflexivity. Qed.

Example raise_bound_name : raise_global "UnityException" "m" = UnityException "m".
Proof. reflexivity. Qed.

Example raise_builtin_name : raise_global "ValueError" "m" = ValueError "m".
Proof. reflexivity. Qed.

Example convert_sample_versions :
  convert_loose_version "0.20.0" = Ok [0; 20; 0]
  ∧ convert_loose_version "1.2.3.dev0" = Ok [1; 2; 3]
  ∧ convert_loose_version "1.0" = Ok [1; 0]
  ∧ convert_loose_version "1.2b3"
    = Raise (ValueError "invalid literal for int() with base 10: 'b'")
  ∧ convert_loose_version "v0.20.0"
    = Raise (ValueError "invalid literal for int() with base 10: 'v'")
  ∧ convert_loose_version ""
    = Raise (AttributeError "'LooseVersion' object has no attribute 'version'").
Proof. repeat split; vm_compute; reflexivity. Qed.

(** With [keep_checkpoints = 2], the third save deletes the first checkpoint. *)
Example three_saves_keep_two :
  let st := three_saves registered_state in
  checkpoint_files (fs (world st)) !! "results/run/Brain-1.ckpt" = None
  ∧ is_Some (checkpoint_files (fs (world st)) !! "results/run/Brain-2.ckpt")
  ∧ is_Some (checkpoint_files (fs (world st)) !! "results/run/Brain-3.ckpt")
  ∧ checkpoints_on_disk (fs (world st)) = 2%nat
  ∧ tf_train.last_checkpoints <$> saver (self st)
    = Some ["results/run/Brain-2.ckpt"; "results/run/Brain-3.ckpt"]
  ∧ all_model_checkpoint_paths <$> checkpoint_states (fs (world st)) !! "results/run"
    = Some ["results/run/Brain-2.ckpt"; "results/run/Brain-3.ckpt"].
Proof.
  cbv zeta. split; [vm_compute; reflexivity|].
  split; [eexists; vm_compute; reflexivity|].
  split; [eexists; vm_compute; reflexivity|].
  repeat split; vm_compute; reflexivity.
Qed.

(** With [keep_checkpoints = 0] the framework saver keeps no list and
    deletes nothing: the three checkpoints stay. *)
Example three_saves_keep_all :
  let st := three_saves keep_all_state in
  is_Some (checkpoint_files (fs (world st)) !! "results/run/Brain-1.ckpt")
  ∧ is_Some (checkpoint_files (fs (world st)) !! "results/run/Brain-2.ckpt")
  ∧ is_Some (checkpoint_files (fs (world st)) !! "results/run/Brain-3.ckpt")
  ∧ checkpoints_on_disk (fs (world st)) = 3%nat
  ∧ _keep_checkpoints (self st) = 0%nat
  ∧ tf_train.last_checkpoints <$> saver (self st) = Some []
  ∧ all_model_checkpoint_paths <$> checkpoint_states (fs (world st)) !! "results/run"
    = Some ["results/run/Brain-3.ckpt"].
Proof.
  cbv zeta. split; [eexists; vm_compute; reflexivity|].
  split; [eexists; vm_compute; reflexivity|].
  split; [eexists; vm_compute; reflexivity|].
  repeat split; vm_compute; reflexivity.
Qed.

(** With [keep_checkpoints = 2], a second [register] between the second
    and the third save leaves all three checkpoints: the new framework
    saver retains only the third. *)
Example three_saves_around_register :
  let st := (save_checkpoint "results/run/Brain-3" sample_settings reregistered_state).2 in
  is_Some (checkpoint_files (fs (world st)) !! "results/run/Brain-1.ckpt")
  ∧ is_Some (checkpoint_files (fs (world st)) !! "results/run/Brain-2.ckpt")
  ∧ is_Some (checkpoint_files (fs (world st)) !! "results/run/Brain-3.ckpt")
  ∧ checkpoints_on_disk (fs (world st)) = 3%nat
  ∧ _keep_checkpoints (self st) = 2%nat
  ∧ tf_train.last_checkpoints <$> saver (self st) = Some ["results/run/Brain-3.ckpt"].
Proof.
  cbv zeta. split; [eexists; vm_compute; reflexivity|].
  split; [eexists; vm_compute; reflexivity|].
  split; [eexists; vm_compute; reflexivity|].
  repeat split; vm_compute; reflexivity.
Qed.

(** A save into a directory that does not exist raises and writes nothing. *)
Example save_without_directory :
  let st := no_directory_state in
  let st' := (save_checkpoint "results/run/Brain-1" sample_settings st).2 in
  (save_checkpoint "results/run/Brain-1" sample_settings st).1
  = Raise (ValueError
             "Parent directory of results/run/Brain-1.ckpt doesn't exist, can't save.")
  ∧ fs (world st') = fs (world st)
  ∧ new_events st st' = [EvSave 1%nat "results/run/Brain-1.ckpt"].
Proof. cbv zeta. repeat split; vm_compute; reflexivity. Qed.

Section SampleLoads.
#[local] Existing Instance sample_runtime.

(** The version tensors of a policy whose variables have no value yet
    cannot be evaluated. *)
Example version_check_before_initialization :
  (_check_model_version "0.20.0" restarted_state).1
  = Raise (FailedPreconditionError "Attempting to use uninitialized value version/major").
Proof. vm_compute. reflexivity. Qed.

(** In a runtime of version [1.2b3] the load of the sample checkpoint
    restores the values and then raises from the version check, before
    the step logic. *)
Example load_in_prerelease_runtime :
  let st' := (@_load_graph prerelease_runtime "results/run" false restarted_state).2 in
  (@_load_graph prerelease_runtime "results/run" false restarted_state).1
  = Raise (ValueError "invalid literal for int() with base 10: 'b'")
  ∧ new_events restarted_state st'
    = [EvLogInfo "Loading model from results/run.";
       EvGetCheckpointState "results/run";
       EvRestore 1%nat "results/run/Brain-5000.ckpt"]
  ∧ variables (get_session (world st') 1%nat) !! "dense/kernel"
    = Some (float32 [2; 1]%nat [3; -4])
  ∧ global_step (get_session (world st') 1%nat) = 5000.
Proof. cbv zeta. repeat split; vm_compute; reflexivity. Qed.

(** A checkpoint whose kernel has another shape than the graph: the
    restore raises once the bias and the step are assigned, and the
    exception is not translated. *)
Example load_of_reshaped_checkpoint :
  let st' := (maybe_load reshaped_state).2 in
  (maybe_load reshaped_state).1
  = Raise (InvalidArgumentError "Assign requires shapes of both tensors to match.")
  ∧ variables (get_session (world st') 1%nat) !! "dense/kernel"
    = Some (float32 [1; 2]%nat [0; 0])
  ∧ variables (get_session (world st') 1%nat) !! "dense/bias"
    = Some (float32 [1]%nat [7])
  ∧ global_step (get_session (world st') 1%nat) = 5000.
Proof. cbv zeta. repeat split; vm_compute; reflexivity. Qed.

(** A [model_path] spelled with a trailing separator names the directory
    the checkpoint was saved in, and the load resumes from it. *)
Example load_with_trailing_separator :
  model_path (self trailing_separator_state) = "results/run/"
  ∧ (maybe_load trailing_separator_state).1 = Ok tt
  ∧ global_step (get_session (world (maybe_load trailing_separator_state).2) 1%nat) = 5000.
Proof. repeat split; vm_compute; reflexivity. Qed.

End SampleLoads.

(** ** What each method does, case by case *)

Section Facts.
Context `{!Runtime}.

Lemma register_None st : register None st = (Ok tt, st).
Proof. reflexivity. Qed.

Lemma register_Some m st :
  register (Some m) st
  = (Ok tt, {| self := registered m (self st);
               world := add_events [EvNewSaver (_keep_checkpoints (self st))] (world st) |}).
Proof. reflexivity. Qed.

Lemma save_checkpoint_unbound st checkpoint_path settings :
  graph (self st) = None →
  save_checkpoint checkpoint_path settings st = (Raise (no_attribute "as_default"), st).
Proof.
  intros Hg. unfold save_checkpoint. unfold_monad. by rewrite Hg.
Qed.

Lemma load_graph_unbound st path reset :
  graph (self st) = None →
  _load_graph path reset st = (Raise (no_attribute "as_default"), st).
Proof.
  intros Hg. unfold _load_graph. unfold_monad. by rewrite Hg.
Qed.

(** A save into a directory that exists, of a session that has a value
    for each variable of the framework saver. *)
Lemma save_checkpoint_bound st g r sv checkpoint_path settings :
  graph (self st) = Some g → sess (self st) = Some r → saver (self st) = Some sv →
  let save_path := checkpoint_path +:+ ".ckpt" in
  let s := get_session (world st) r in
  is_directory (fs (world st)) (dirname save_path) = true →
  tf_train.var_list sv ⊆ dom (variables s) →
  save_checkpoint checkpoint_path settings st
  = (Ok tt,
     {| self := set_saver (Some (record_last_checkpoint sv save_path).1) (self st);
        world :=
          {| sessions := sessions (world st);
             fs := fs_after_export checkpoint_path settings g s
                     (fs_after_write_graph g (model_path (self st)) "raw_graph_def.pb" false
                        (fs_after_save sv s save_path (fs (world st))));
             log := log (world st)
                    ++ [ EvSave r save_path;
                         EvWriteGraph g (model_path (self st)) "raw_graph_def.pb" false;
                         EvExport checkpoint_path settings g r ] |} |}).
Proof.
  destruct st as [s [ss f l]]. simpl. intros Hg Hr Hs Hdir Hinit.
  unfold save_checkpoint, export, saver_save, write_graph, export_policy_model.
  unfold_monad. simpl.
  repeat (first [rewrite Hg | rewrite Hr | rewrite Hs]; simpl).
  unfold get_session in *. simpl in *.
  rewrite Hdir. simpl. rewrite (bool_decide_eq_true_2 _ Hinit). simpl.
  repeat (first [rewrite Hg | rewrite Hr | rewrite Hs]; simpl).
  rewrite <- !app_assoc. reflexivity.
Qed.

(** When the framework save raises, nothing is written and nothing else
    is called. *)
Lemma save_checkpoint_save_fails st g checkpoint_path e st1 :
  graph (self st) = Some g →
  save_attempt checkpoint_path st = (Raise e, st1) →
  ∀ settings, save_checkpoint checkpoint_path settings st = (Raise e, st1).
Proof.
  intros Hg Hsave settings. unfold save_attempt in Hsave.
  unfold save_checkpoint, as_default.
  unfold bind at 1. unfold bind at 1. unfold get_self at 1. simpl.
  rewrite Hg. simpl. unfold bind at 1. unfold ret at 1. simpl.
  unfold bind at 1. unfold bind in Hsave. unfold bind at 1.
  unfold get_self in *. simpl in *.
  destruct (saver (self st)) as [sv|]; [|by inversion Hsave].
  by rewrite Hsave.
Qed.

(** The framework save raises when the directory is missing or a variable
    has no value, and then leaves attributes, sessions and files alone. *)
Lemma save_attempt_outcomes st r sv checkpoint_path :
  sess (self st) = Some r → saver (self st) = Some sv →
  let save_path := checkpoint_path +:+ ".ckpt" in
  let logged := {| self := self st; world := add_events [EvSave r save_path] (world st) |} in
  save_attempt checkpoint_path st
  = if negb (is_directory (fs (world st)) (dirname save_path)) then
      (Raise (ValueError ("Parent directory of " +:+ save_path
                          +:+ " doesn't exist, can't save.")), logged)
    else if negb (bool_decide (tf_train.var_list sv
                               ⊆ dom (variables (get_session (world st) r)))) then
      (Raise (FailedPreconditionError "Attempting to use uninitialized value"), logged)
    else
      (Ok tt,
       {| self := set_saver (Some (record_last_checkpoint sv save_path).1) (self st);
          world := {| sessions := sessions (world st);
                      fs := fs_after_save sv (get_session (world st) r) save_path
                              (fs (world st));
                      log := log (world st) ++ [EvSave r save_path] |} |}).
Proof.
  destruct st as [s [ss f l]]. simpl. intros Hr Hs.
  unfold save_attempt, saver_save. unfold_monad. simpl. rewrite Hs, Hr. simpl.
  unfold get_session, add_events. simpl.
  destruct (is_directory f _); simpl; [|done].
  case_bool_decide; simpl; done.
Qed.

Lemma check_model_version_bound st p r version :
  policy (self st) = Some p → sess (self st) = Some r →
  _check_model_version version st
  = match version_outcome p (get_session (world st) r) version with
    | Ok evs => (Ok tt, {| self := self st; world := add_events evs (world st) |})
    | Raise e => (Raise e, st)
    end.
Proof.
  destruct st as [s [ss f l]]. simpl. intros Hp Hr.
  unfold _check_model_version, version_outcome, add_events. unfold_monad. simpl.
  rewrite Hp. simpl.
  destruct (TFPolicy.version_tensors p) as [[[t0 t1] t2]|]; simpl.
  - rewrite Hr. simpl.
    destruct (t0 _) as [v0|e0]; simpl; [|done].
    destruct (t1 _) as [v1|e1]; simpl; [|done].
    destruct (t2 _) as [v2|e2]; simpl; [|done].
    destruct (_convert_version_string version) as [current|e]; simpl; [|done].
    case_bool_decide; simpl; [by rewrite app_nil_r|done].
  - by rewrite app_nil_r.
Qed.

Lemma load_graph_missing st g path reset :
  graph (self st) = Some g →
  checkpoint_states (fs (world st)) !! path = None →
  _load_graph path reset st
  = (Raise (NameError "name 'UnityPolicyException' is not defined"),
     {| self := self st;
        world := add_events [EvLogInfo (loading_message path); EvGetCheckpointState path]
                   (world st) |}).
Proof.
  destruct st as [s [ss f l]]. simpl. intros Hg Hc.
  unfold _load_graph, get_checkpoint_state. unfold_monad. simpl.
  rewrite Hg. simpl. rewrite Hc. simpl. unfold add_events. simpl.
  rewrite <- !app_assoc. reflexivity.
Qed.

Lemma load_graph_no_data st g r sv ck path reset :
  graph (self st) = Some g → sess (self st) = Some r → saver (self st) = Some sv →
  checkpoint_states (fs (world st)) !! path = Some ck →
  checkpoint_files (fs (world st)) !! model_checkpoint_path ck = None →
  _load_graph path reset st
  = (Raise (ValueError ("The passed save_path is not a valid checkpoint: "
                        +:+ model_checkpoint_path ck)),
     {| self := self st;
        world := add_events [EvLogInfo (loading_message path); EvGetCheckpointState path;
                             EvRestore r (model_checkpoint_path ck)]
                   (world st) |}).
Proof.
  destruct st as [s [ss f l]]. simpl. intros Hg Hr Hs Hc Hd.
  unfold _load_graph, get_checkpoint_state, saver_restore. unfold_monad. simpl.
  rewrite Hg. simpl. rewrite Hc. simpl. rewrite Hs. simpl. rewrite Hr. simpl.
  rewrite Hd. simpl. unfold add_events. simpl. rewrite <- !app_assoc. reflexivity.
Qed.

Lemma load_graph_mismatch st g r sv ck data path reset :
  graph (self st) = Some g → sess (self st) = Some r → saver (self st) = Some sv →
  checkpoint_states (fs (world st)) !! path = Some ck →
  checkpoint_files (fs (world st)) !! model_checkpoint_path ck = Some data →
  ¬ tf_train.var_list sv ⊆ dom (ck_variables data) →
  _load_graph path reset st
  = (Raise (NameError "name 'UnityPolicyException' is not defined"),
     {| self := self st;
        world := add_events [EvLogInfo (loading_message path); EvGetCheckpointState path;
                             EvRestore r (model_checkpoint_path ck)]
                   (world st) |}).
Proof.
  destruct st as [s [ss f l]]. simpl. intros Hg Hr Hs Hc Hd Hsub.
  unfold _load_graph, get_checkpoint_state, saver_restore. unfold_monad. simpl.
  rewrite Hg. simpl. rewrite Hc. simpl. rewrite Hs. simpl. rewrite Hr. simpl.
  rewrite Hd. simpl. rewrite bool_decide_eq_false_2 by done. simpl.
  unfold add_events. simpl. rewrite <- !app_assoc. reflexivity.
Qed.

(** The checkpoint has the variables of the graph, one of them in another
    shape or type: the restore fails once some variables are assigned. *)
Lemma load_graph_reshaped st g r sv ck data path reset :
  graph (self st) = Some g → sess (self st) = Some r → saver (self st) = Some sv →
  checkpoint_states (fs (world st)) !! path = Some ck →
  checkpoint_files (fs (world st)) !! model_checkpoint_path ck = Some data →
  tf_train.var_list sv ⊆ dom (ck_variables data) →
  ¬ signatures_match sv data →
  _load_graph path reset st
  = (Raise (InvalidArgumentError "Assign requires shapes of both tensors to match."),
     {| self := self st;
        world :=
          {| sessions := <[r := partly_restored sv data (get_session (world st) r)]>
                           (sessions (world st));
             fs := fs (world st);
             log := log (world st)
                    ++ [EvLogInfo (loading_message path); EvGetCheckpointState path;
                        EvRestore r (model_checkpoint_path ck)] |} |}).
Proof.
  destruct st as [s [ss f l]]. simpl. intros Hg Hr Hs Hc Hd Hsub Hsig.
  unfold _load_graph, get_checkpoint_state, saver_restore. unfold_monad. simpl.
  rewrite Hg. simpl. rewrite Hc. simpl. rewrite Hs. simpl. rewrite Hr. simpl.
  rewrite Hd. simpl. rewrite bool_decide_eq_true_2 by done. simpl.
  rewrite bool_decide_eq_false_2 by done. simpl.
  unfold get_session. simpl. rewrite <- !app_assoc. reflexivity.
Qed.

(** After the lookup of a checkpoint state, a load is the restore, then
    the version check, then the step logic. *)
Lemma load_graph_restored st pol sv ck data path reset :
  policy (self st) = Some pol →
  graph (self st) = Some (TFPolicy.graph pol) →
  sess (self st) = Some (TFPolicy.sess pol) →
  saver (self st) = Some sv →
  checkpoint_states (fs (world st)) !! path = Some ck →
  checkpoint_files (fs (world st)) !! model_checkpoint_path ck = Some data →
  tf_train.var_list sv ⊆ dom (ck_variables data) →
  signatures_match sv data →
  let r := TFPolicy.sess pol in
  let s' := restored sv data (get_session (world st) r) in
  let prologue := [EvLogInfo (loading_message path); EvGetCheckpointState path;
                   EvRestore r (model_checkpoint_path ck)] in
  _load_graph path reset st
  = match version_outcome pol s' __version__ with
    | Ok evs =>
        (Ok tt,
         {| self := self st;
            world :=
              {| sessions := <[r := loaded_session sv data reset (get_session (world st) r)]>
                               (sessions (world st));
                 fs := fs (world st);
                 log := log (world st) ++ prologue ++ evs
                        ++ step_events (self st) r reset (global_step s') |} |})
    | Raise e =>
        (Raise e,
         {| self := self st;
            world := {| sessions := <[r := s']> (sessions (world st));
                        fs := fs (world st);
                        log := log (world st) ++ prologue |} |})
    end.
Proof.
  destruct st as [s [ss f l]]. simpl. intros Hp Hg Hr Hs Hc Hd Hsub Hsig.
  unfold _load_graph, get_checkpoint_state, saver_restore, _set_step, get_current_step.
  unfold_monad. simpl.
  rewrite Hg. simpl. rewrite Hc. simpl. rewrite Hs. simpl. rewrite Hr. simpl.
  rewrite Hd. simpl. rewrite bool_decide_eq_true_2 by done. simpl.
  rewrite bool_decide_eq_true_2 by done. simpl.
  rewrite (check_model_version_bound _ pol (TFPolicy.sess pol)) by done.
  simpl. rewrite get_session_insert.
  unfold get_session. simpl.
  destruct (version_outcome pol _ __version__) as [evs|e]; simpl.
  - unfold loaded_session, step_events, get_session, add_events.
    destruct reset; simpl; rewrite Hp; simpl;
      rewrite ?lookup_insert_eq, ?insert_insert_eq; simpl;
      rewrite <- ?app_assoc; simpl; reflexivity.
  - rewrite <- ?app_assoc. reflexivity.
Qed.

Lemma check_model_version_frames P version :
  (∀ msg, P (EvLogWarning msg)) → frames P (_check_model_version version).
Proof.
  intros HP. unfold _check_model_version. repeat frames_step.
Qed.

Lemma load_graph_frames path reset :
  frames (load_event path reset) (_load_graph path reset).
Proof.
  unfold _load_graph, as_default, get_checkpoint_state, saver_restore,
    _set_step, get_current_step.
  repeat first [ apply check_model_version_frames; done | frames_step ].
Qed.

Lemma maybe_load_init st init :
  initialize_path (self st) = Some init →
  maybe_load st = _load_graph init (negb (load (self st))) st.
Proof.
  intros Hi. unfold maybe_load, bind, get_self. simpl. by rewrite Hi.
Qed.

Lemma maybe_load_resume st :
  initialize_path (self st) = None → load (self st) = true →
  maybe_load st = _load_graph (model_path (self st)) false st.
Proof.
  intros Hi Hl. unfold maybe_load, bind, get_self. simpl. by rewrite Hi, Hl.
Qed.

Lemma maybe_load_fresh st :
  initialize_path (self st) = None → load (self st) = false →
  maybe_load st = initialize_fresh st.
Proof.
  intros Hi Hl. unfold maybe_load, initialize_fresh, bind, get_self. simpl.
  by rewrite Hi, Hl.
Qed.

(** A resuming [maybe_load] is the load from its source. *)
Lemma maybe_load_source st :
  load (self st) = true →
  maybe_load st = _load_graph (load_source (self st)) false st.
Proof.
  intros Hl. unfold load_source.
  destruct (initialize_path (self st)) as [init|] eqn:Hi.
  - by rewrite (maybe_load_init st init Hi), Hl.
  - by apply maybe_load_resume.
Qed.

Lemma initialize_fresh_frames : frames is_initialize_graph initialize_fresh.
Proof.
  unfold initialize_fresh, _initialize_graph. repeat frames_step.
Qed.

Lemma maybe_load_frame st :
  self (maybe_load st).2 = self st
  ∧ fs (world (maybe_load st).2) = fs (world st)
  ∧ ∃ evs, log (world (maybe_load st).2) = log (world st) ++ evs
           ∧ Forall (maybe_load_event (self st)) evs.
Proof.
  unfold maybe_load_event.
  destruct (initialize_path (self st)) as [init|] eqn:Hi.
  - rewrite (maybe_load_init st init Hi). apply load_graph_frames.
  - destruct (load (self st)) eqn:Hload.
    + rewrite (maybe_load_resume st Hi Hload). apply load_graph_frames.
    + rewrite (maybe_load_fresh st Hi Hload). apply initialize_fresh_frames.
Qed.

Lemma export_self st output_filepath settings :
  self (export output_filepath settings st).2 = self st.
Proof.
  unfold export, export_policy_model. unfold_monad. simpl.
  destruct (graph (self st)); simpl; [|done].
  destruct (sess (self st)); simpl; done.
Qed.

(** What [save_checkpoint] can do to the attributes: nothing, or a new
    retained list in the framework saver. *)
Lemma save_checkpoint_self st checkpoint_path settings :
  self (save_checkpoint checkpoint_path settings st).2 = self st
  ∨ ∃ sv, saver (self st) = Some sv
          ∧ self (save_checkpoint checkpoint_path settings st).2
            = set_saver (Some (record_last_checkpoint sv (checkpoint_path +:+ ".ckpt")).1)
                (self st).
Proof.
  destruct st as [[mp ip kc ld pol [g|] [r|] [sv|]] w];
    unfold save_checkpoint, export, saver_save, write_graph, export_policy_model;
    unfold_monad; simpl; eauto.
  destruct (is_directory _ _); simpl; eauto.
  case_bool_decide; simpl; eauto.
Qed.

Lemma bound_registered m s : bound (registered m s).
Proof.
  unfold bound, registered. simpl. repeat split.
  eexists. split; [reflexivity|]. unfold saver_for, fresh_saver. simpl.
  repeat split; [|lia]. apply graph_signatures_dom.
Qed.

Lemma save_checkpoint_keeps_bound st checkpoint_path settings :
  bound (self st) → bound (self (save_checkpoint checkpoint_path settings st).2).
Proof.
  intros Hb.
  destruct (save_checkpoint_self st checkpoint_path settings) as [->|(sv & Hs & ->)];
    [done|].
  unfold bound in *. simpl.
  destruct (policy (self st)) as [p|] eqn:Hp; [|by destruct Hb as (_ & _ & ?); congruence].
  destruct Hb as (Hg & Hr & sv0 & Hs0 & Hmax & Hvars & Hlen & Hsig).
  assert (sv0 = sv) as -> by congruence.
  repeat split; [done..|].
  eexists. split; [reflexivity|]. unfold saver_for. simpl.
  rewrite record_last_max, record_last_vars, record_last_signatures.
  repeat split; [done..| |done].
  by apply record_last_length.
Qed.

Lemma run_keeps_bound o st : bound (self st) → bound (self (run o st).2).
Proof.
  intros Hb. destruct o as [[m|]| | | | |]; cbn [run].
  - rewrite register_Some. simpl. apply bound_registered.
  - by rewrite register_None.
  - by apply save_checkpoint_keeps_bound.
  - by rewrite export_self.
  - by rewrite (proj1 (maybe_load_frame st)).
  - by rewrite (proj1 (load_graph_frames _ _ st)).
  - by rewrite (proj1 (check_model_version_frames (λ _, True) _ (λ _, I) st)).
Qed.

Lemma reachable_bound st : reachable st → bound (self st).
Proof.
  induction 1 as [ts mp ld w|o st _ IH|st w _ IH]; simpl.
  - unfold bound. simpl. done.
  - by apply run_keeps_bound.
  - done.
Qed.

(** What a method call can do to the attributes of [self]: nothing, a new
    registration, or a new retained list in the framework saver. *)
Lemma run_self o st :
  self (run o st).2 = self st
  ∨ (∃ m, o = OpRegister (Some m) ∧ self (run o st).2 = registered m (self st))
  ∨ (∃ checkpoint_path settings sv,
       o = OpSaveCheckpoint checkpoint_path settings
       ∧ saver (self st) = Some sv
       ∧ self (run o st).2
         = set_saver (Some (record_last_checkpoint sv (checkpoint_path +:+ ".ckpt")).1)
             (self st)).
Proof.
  destruct o as [[m|]|checkpoint_path settings| | | |]; cbn [run].
  - right. left. exists m. by rewrite register_Some.
  - left. by rewrite register_None.
  - destruct (save_checkpoint_self st checkpoint_path settings) as [E|(sv & Hs & E)].
    + by left.
    + right. right. by exists checkpoint_path, settings, sv.
  - left. apply export_self.
  - left. apply maybe_load_frame.
  - left. apply load_graph_frames.
  - left. apply (check_model_version_frames (λ _, True) _ (λ _, I) st).
Qed.

(** A registered Saver stays registered. *)
Lemma run_keeps_registered o st :
  unregistered (self st) = false →
  unregistered (self (run o st).2) = false.
Proof.
  intros Hu.
  destruct (run_self o st) as [->|[(m & _ & ->)|(? & ? & sv & _ & _ & ->)]]; done.
Qed.

Lemma bound_registered_inv s p :
  bound s → policy s = Some p →
  graph s = Some (TFPolicy.graph p) ∧ sess s = Some (TFPolicy.sess p)
  ∧ ∃ sv, saver s = Some sv ∧ saver_for s p sv.
Proof. unfold bound. intros Hb Hp. by rewrite Hp in Hb. Qed.

Lemma unregistered_false s : unregistered s = false → ∃ p, policy s = Some p.
Proof. unfold unregistered. destruct (policy s); [eauto|done]. Qed.

(** A successful load found a checkpoint state, a checkpoint under the
    path it names, and every variable of the saver in that checkpoint,
    with the type and shape the graph gives it; and the version check
    passed. *)
Lemma load_graph_Ok st pol path reset st' :
  bound (self st) → policy (self st) = Some pol →
  _load_graph path reset st = (Ok tt, st') →
  ∃ sv ck data evs,
    saver (self st) = Some sv
    ∧ checkpoint_states (fs (world st)) !! path = Some ck
    ∧ checkpoint_files (fs (world st)) !! model_checkpoint_path ck = Some data
    ∧ tf_train.var_list sv ⊆ dom (ck_variables data)
    ∧ signatures_match sv data
    ∧ version_outcome pol (restored sv data (get_session (world st) (TFPolicy.sess pol)))
        __version__ = Ok evs
    ∧ sessions (world st')
      = <[TFPolicy.sess pol :=
            loaded_session sv data reset (get_session (world st) (TFPolicy.sess pol))]>
          (sessions (world st))
    ∧ log (world st')
      = log (world st)
        ++ [EvLogInfo (loading_message path); EvGetCheckpointState path;
            EvRestore (TFPolicy.sess pol) (model_checkpoint_path ck)]
        ++ evs
        ++ step_events (self st) (TFPolicy.sess pol) reset
             (global_step (restored sv data (get_session (world st) (TFPolicy.sess pol)))).
Proof.
  intros Hb Hp Hload.
  destruct (bound_registered_inv _ _ Hb Hp) as (Hg & Hr & sv & Hs & _).
  destruct (checkpoint_states (fs (world st)) !! path) as [ck|] eqn:Hc.
  - destruct (checkpoint_files (fs (world st)) !! model_checkpoint_path ck) as [data|] eqn:Hd.
    + destruct (decide (tf_train.var_list sv ⊆ dom (ck_variables data))) as [Hsub|Hsub].
      * destruct (decide (signatures_match sv data)) as [Hsig|Hsig].
        -- rewrite (load_graph_restored st pol sv ck data) in Hload by done.
           destruct (version_outcome pol _ __version__) as [evs|e] eqn:Hv; [|done].
           injection Hload as <-. exists sv, ck, data, evs. done.
        -- by rewrite (load_graph_reshaped st (TFPolicy.graph pol) (TFPolicy.sess pol) sv ck data)
             in Hload.
      * by rewrite (load_graph_mismatch st (TFPolicy.graph pol) (TFPolicy.sess pol) sv ck data) in Hload.
    + by rewrite (load_graph_no_data st (TFPolicy.graph pol) (TFPolicy.sess pol) sv ck) in Hload.
  - by rewrite (load_graph_missing st (TFPolicy.graph pol) path reset Hg Hc) in Hload.
Qed.

(** A load by a registered Saver starts by looking up the checkpoint state
    of the path it is given. *)
Lemma load_graph_looks_up st pol path reset :
  bound (self st) → policy (self st) = Some pol →
  ∃ evs, new_events st (_load_graph path reset st).2
         = EvLogInfo (loading_message path) :: EvGetCheckpointState path :: evs.
Proof.
  intros Hb Hp.
  destruct (bound_registered_inv _ _ Hb Hp) as (Hg & Hr & sv & Hs & _).
  destruct (checkpoint_states (fs (world st)) !! path) as [ck|] eqn:Hc.
  - destruct (checkpoint_files (fs (world st)) !! model_checkpoint_path ck) as [data|] eqn:Hd.
    + destruct (decide (tf_train.var_list sv ⊆ dom (ck_variables data))) as [Hsub|Hsub].
      * destruct (decide (signatures_match sv data)) as [Hsig|Hsig].
        -- rewrite (load_graph_restored st pol sv ck data) by done.
           destruct (version_outcome pol _ __version__) as [evs|e];
             eexists; apply new_events_app; simpl; reflexivity.
        -- rewrite (load_graph_reshaped st (TFPolicy.graph pol) (TFPolicy.sess pol) sv ck data)
             by done.
           eexists. apply new_events_app. simpl. reflexivity.
      * rewrite (load_graph_mismatch st (TFPolicy.graph pol) (TFPolicy.sess pol) sv ck data) by done.
        eexists. apply new_events_app. simpl. reflexivity.
    + rewrite (load_graph_no_data st (TFPolicy.graph pol) (TFPolicy.sess pol) sv ck) by done.
      eexists. apply new_events_app. simpl. reflexivity.
  - rewrite (load_graph_missing st (TFPolicy.graph pol) path reset Hg Hc).
    eexists. apply new_events_app. simpl. reflexivity.
Qed.

Lemma initialize_fresh_registered st p :
  policy (self st) = Some p →
  initialize_fresh st
  = (Ok tt,
     {| self := self st;
        world := {| sessions := <[TFPolicy.sess p :=
                                    {| variables := initial_values (TFPolicy.graph p);
                                       global_step := 0 |}]> (sessions (world st));
                    fs := fs (world st);
                    log := log (world st) ++ [EvInitializeGraph (TFPolicy.sess p)] |} |}).
Proof.
  intros Hp. unfold initialize_fresh, _initialize_graph. unfold_monad. simpl.
  by rewrite Hp.
Qed.

Lemma initialize_fresh_unregistered st :
  policy (self st) = None →
  initialize_fresh st = (Raise (no_attribute "_initialize_graph"), st).
Proof.
  intros Hp. unfold initialize_fresh. unfold_monad. simpl. by rewrite Hp.
Qed.

End Facts.

(** ** The properties of the specification *)

Section Claims.
Context `{!Runtime}.

(** C8: [register(None)] returns without raising and leaves the Saver (and
    everything else) as it was; [register(m)] binds the Saver to [m]: its
    policy is [m], its graph and session are those of [m], its framework
    saver is a new one for that graph, and nothing else changes. *)
Theorem register_binds_or_does_nothing st :
  register None st = (Ok tt, st)
  ∧ ∀ m, (register (Some m) st).1 = Ok tt
         ∧ let s' := self (register (Some m) st).2 in
           policy s' = Some m
           ∧ graph s' = Some (TFPolicy.graph m)
           ∧ sess s' = Some (TFPolicy.sess m)
           ∧ saver s' = Some (fresh_saver (self st) (TFPolicy.graph m))
           ∧ model_path s' = model_path (self st)
           ∧ initialize_path s' = initialize_path (self st)
           ∧ _keep_checkpoints s' = _keep_checkpoints (self st)
           ∧ load s' = load (self st)
           ∧ sessions (world (register (Some m) st).2) = sessions (world st)
           ∧ fs (world (register (Some m) st).2) = fs (world st).
Proof.
  split; [apply register_None|].
  intros m. rewrite register_Some. simpl. repeat split.
Qed.

(** C10: in every state a Saver can reach, [unregistered] is true exactly
    when [policy] is [None]; a new Saver is unregistered; while it is
    unregistered the four attributes are all [None] and [save_checkpoint]
    and [_load_graph] raise at once, changing nothing; once [register] has
    been given a policy the four attributes are all set, and they remain
    set after any further method call. *)
Theorem registration_invariant st :
  reachable st →
  (∀ trainer_settings path flag, unregistered (__init__ trainer_settings path flag) = true)
  ∧ (unregistered (self st) = true ↔ policy (self st) = None)
  ∧ (unregistered (self st) = true →
       graph (self st) = None ∧ sess (self st) = None ∧ saver (self st) = None
       ∧ (∀ path settings,
            save_checkpoint path settings st = (Raise (no_attribute "as_default"), st))
       ∧ (∀ path reset,
            _load_graph path reset st = (Raise (no_attribute "as_default"), st)))
  ∧ (∀ m, let s' := self (register (Some m) st).2 in
          unregistered s' = false
          ∧ is_Some (policy s') ∧ is_Some (graph s') ∧ is_Some (sess s')
          ∧ is_Some (saver s'))
  ∧ (unregistered (self st) = false →
       ∀ o, let s' := self (run o st).2 in
            unregistered s' = false
            ∧ is_Some (policy s') ∧ is_Some (graph s') ∧ is_Some (sess s')
            ∧ is_Some (saver s')).
Proof.
  intros Hreach. pose proof (reachable_bound st Hreach) as Hb.
  assert (∀ s, bound s → unregistered s = false →
               unregistered s = false
               ∧ is_Some (policy s) ∧ is_Some (graph s) ∧ is_Some (sess s)
               ∧ is_Some (saver s)) as Hset.
  { intros s Hs Hu. destruct (unregistered_false s Hu) as [p Hp].
    destruct (bound_registered_inv s p Hs Hp) as (Hg & Hr & sv & Hsv & _).
    rewrite Hp, Hg, Hr, Hsv. eauto 10. }
  split; [done|]. split; [|split; [|split]].
  - unfold unregistered. destruct (policy (self st)); split; done.
  - intros Hu. unfold unregistered, bound in *.
    destruct (policy (self st)); [done|]. destruct Hb as (Hg & Hr & Hs).
    repeat split; try done.
    + intros. by apply save_checkpoint_unbound.
    + intros. by apply load_graph_unbound.
  - intros m s'. apply Hset; [|done].
    subst s'. rewrite register_Some. apply bound_registered.
  - intros Hu o s'. apply Hset.
    + by apply run_keeps_bound.
    + by apply run_keeps_registered.
Qed.

(** C5: [maybe_load] takes one of three branches, in this order: with an
    initialization path it is the load from that path; otherwise with the
    load flag it is the load from [model_path]; otherwise it is the fresh
    initialization of the graph of the policy.  A load looks up the
    checkpoint state of its own path only (and does so whenever the Saver
    is registered) and never initializes the graph; the fresh
    initialization makes no call that reads or writes files and leaves the
    files as they are. *)
Theorem maybe_load_selects_branch st :
  reachable st →
  let evs := new_events st (maybe_load st).2 in
  match initialize_path (self st) with
  | Some init =>
      maybe_load st = _load_graph init (negb (load (self st))) st
      ∧ Forall (load_event init (negb (load (self st)))) evs
      ∧ (unregistered (self st) = false → EvGetCheckpointState init ∈ evs)
  | None =>
      if load (self st) then
        maybe_load st = _load_graph (model_path (self st)) false st
        ∧ Forall (load_event (model_path (self st)) false) evs
        ∧ (unregistered (self st) = false →
           EvGetCheckpointState (model_path (self st)) ∈ evs)
      else
        maybe_load st = initialize_fresh st
        ∧ Forall is_initialize_graph evs
        ∧ fs (world (maybe_load st).2) = fs (world st)
        ∧ (∀ p, policy (self st) = Some p →
                (maybe_load st).1 = Ok tt
                ∧ evs = [EvInitializeGraph (TFPolicy.sess p)]
                ∧ get_session (world (maybe_load st).2) (TFPolicy.sess p)
                  = {| variables := initial_values (TFPolicy.graph p);
                       global_step := 0 |})
  end.
Proof.
  intros Hreach evs. pose proof (reachable_bound st Hreach) as Hb.
  assert (∀ path reset, maybe_load st = _load_graph path reset st →
            Forall (load_event path reset) evs
            ∧ (unregistered (self st) = false → EvGetCheckpointState path ∈ evs)) as Hload.
  { intros path reset E. subst evs. rewrite E. split.
    - destruct (load_graph_frames path reset st) as (_ & _ & evs & Hl & Hevs).
      by rewrite (new_events_app _ _ _ Hl).
    - intros Hu. destruct (unregistered_false _ Hu) as [p Hp].
      destruct (load_graph_looks_up st p path reset Hb Hp) as [evs' ->].
      set_solver. }
  destruct (initialize_path (self st)) as [init|] eqn:Hi.
  - pose proof (maybe_load_init st init Hi) as E. split; [done|]. by apply Hload.
  - destruct (load (self st)) eqn:Hl.
    + pose proof (maybe_load_resume st Hi Hl) as E. split; [done|]. by apply Hload.
    + pose proof (maybe_load_fresh st Hi Hl) as E. split; [done|].
      subst evs. rewrite E.
      destruct (initialize_fresh_frames st) as (_ & Hfs & evs & Hlog & Hevs).
      split; [by rewrite (new_events_app _ _ _ Hlog)|]. split; [done|].
      intros p Hp. clear Hfs evs Hlog Hevs.
      rewrite (initialize_fresh_registered st p Hp). simpl.
      split; [done|]. split.
      * by apply new_events_app.
      * unfold get_session. simpl. by rewrite lookup_insert_eq.
Qed.

(** C6: the only calls of [maybe_load] that put the step counter back to
    zero are [_set_step(0)], made only with an initialization path and
    without the load flag, and the fresh initialization, made only without
    either.  With the load flag set neither is ever made, and after a
    successful load the step counter of the policy is the one stored in the
    checkpoint that was loaded. *)
Theorem step_reset_only_without_resume st :
  reachable st →
  let evs := new_events st (maybe_load st).2 in
  (∀ r n, EvSetStep r n ∈ evs →
          n = 0 ∧ load (self st) = false ∧ is_Some (initialize_path (self st)))
  ∧ (∀ r, EvInitializeGraph r ∈ evs →
          load (self st) = false ∧ initialize_path (self st) = None)
  ∧ (load (self st) = true →
       (∀ e, e ∈ evs → ¬ is_step_reset e)
       ∧ ∀ p st', policy (self st) = Some p → maybe_load st = (Ok tt, st') →
           ∃ ck data,
             checkpoint_states (fs (world st)) !! load_source (self st) = Some ck
             ∧ checkpoint_files (fs (world st)) !! model_checkpoint_path ck = Some data
             ∧ global_step (get_session (world st') (TFPolicy.sess p))
               = ck_global_step data).
Proof.
  intros Hreach evs. pose proof (reachable_bound st Hreach) as Hb.
  destruct (maybe_load_frame st) as (_ & _ & evs' & Hlog & Hevs).
  assert (evs = evs') as -> by (by apply new_events_app). clear Hlog.
  rewrite Forall_forall in Hevs. unfold maybe_load_event in Hevs.
  split; [|split].
  - intros r n Hin. specialize (Hevs _ Hin). simpl in Hevs.
    destruct (initialize_path (self st)); [|destruct (load (self st))]; simpl in Hevs.
    + destruct Hevs as [-> Hneg]. apply negb_true_iff in Hneg. eauto.
    + by destruct Hevs.
    + done.
  - intros r Hin. specialize (Hevs _ Hin). simpl in Hevs.
    destruct (initialize_path (self st)); [|destruct (load (self st))]; simpl in Hevs;
      done.
  - intros Hl. split.
    + intros e Hin Hreset. specialize (Hevs _ Hin). rewrite Hl in Hevs.
      destruct (initialize_path (self st)); destruct e; simpl in *;
        try done; by destruct Hevs.
    + intros p st' Hp Hok.
      rewrite (maybe_load_source st Hl) in Hok.
      destruct (load_graph_Ok st p _ _ st' Hb Hp Hok)
        as (sv & ck & data & vevs & _ & Hc & Hd & _ & _ & _ & Hss & _).
      exists ck, data. repeat split; try done.
      unfold get_session at 1. rewrite Hss, lookup_insert_eq. reflexivity.
Qed.

(** C1, amended: with an initialization path, [maybe_load] of a registered
    Saver is the load from that path, whatever the load flag, and looks up
    the checkpoint state of that path and of no other.  When it succeeds,
    the variables of the policy are those restored from the checkpoint, and
    the step counter is zero when the load flag is unset, and the step
    stored in the checkpoint when it is set. *)
Theorem init_path_load_resets_unless_resuming st init p :
  reachable st → policy (self st) = Some p →
  initialize_path (self st) = Some init →
  let evs := new_events st (maybe_load st).2 in
  let r := TFPolicy.sess p in
  maybe_load st = _load_graph init (negb (load (self st))) st
  ∧ EvGetCheckpointState init ∈ evs
  ∧ (∀ d, EvGetCheckpointState d ∈ evs → d = init)
  ∧ ∀ st', maybe_load st = (Ok tt, st') →
      ∃ sv ck data,
        saver (self st) = Some sv
        ∧ checkpoint_states (fs (world st)) !! init = Some ck
        ∧ checkpoint_files (fs (world st)) !! model_checkpoint_path ck = Some data
        ∧ variables (get_session (world st') r)
          = variables (restored sv data (get_session (world st) r))
        ∧ global_step (get_session (world st') r)
          = (if load (self st) then ck_global_step data else 0)
        ∧ (EvSetStep r 0 ∈ evs ↔ load (self st) = false).
Proof.
  intros Hreach Hp Hi evs r. pose proof (reachable_bound st Hreach) as Hb.
  pose proof (maybe_load_init st init Hi) as E.
  split; [done|]. subst evs. rewrite E. split; [|split].
  - destruct (load_graph_looks_up st p init (negb (load (self st))) Hb Hp) as [evs' ->].
    set_solver.
  - intros d Hin.
    destruct (load_graph_frames init (negb (load (self st))) st) as (_ & _ & evs & Hl & Hevs).
    rewrite (new_events_app _ _ _ Hl) in Hin.
    rewrite Forall_forall in Hevs. apply (Hevs _ Hin).
  - intros st' Hok.
    destruct (load_graph_Ok st p _ _ st' Hb Hp Hok)
      as (sv & ck & data & vevs & Hs & Hc & Hd & Hsub & Hsig & Hv & Hss & Hlog).
    exists sv, ck, data. repeat split; try done.
    + unfold get_session at 1. rewrite Hss, lookup_insert_eq. simpl.
      unfold loaded_session. by destruct (load (self st)).
    + unfold get_session at 1. rewrite Hss, lookup_insert_eq. simpl.
      unfold loaded_session. by destruct (load (self st)).
    + intros Hin.
      destruct (load_graph_frames init (negb (load (self st))) st) as (_ & _ & evs & Hl & Hevs).
      rewrite (new_events_app _ _ _ Hl) in Hin.
      rewrite Forall_forall in Hevs. destruct (Hevs _ Hin) as [_ Hneg].
      by apply negb_true_iff in Hneg.
    + intros Hl. rewrite Hok. simpl. rewrite (new_events_app _ _ _ Hlog).
      unfold step_events. rewrite Hl. simpl. subst r. set_solver.
Qed.

(** C4, amended: [_check_model_version] of a registered Saver evaluates
    the three version tensors of the policy in the session, then converts
    the version string, and an exception of either is not caught: the
    check raises it and leaves the state as it was.  Otherwise the check
    returns normally, changing nothing but the log, to which it adds the
    warning when the two tuples differ and nothing when they are equal.
    Once the checkpoint is restored, [_load_graph] raises what the check
    raises, with the restored values in the session and the step logic not
    run; when the check returns, [_load_graph] returns normally whatever
    the versions: the warning, if any, is followed by the step reset or
    the resume message. *)
Theorem version_check_warns_or_propagates st pol sv :
  reachable st → policy (self st) = Some pol → saver (self st) = Some sv →
  let r := TFPolicy.sess pol in
  (∀ version,
     _check_model_version version st
     = match version_outcome pol (get_session (world st) r) version with
       | Ok evs => (Ok tt, {| self := self st; world := add_events evs (world st) |})
       | Raise e => (Raise e, st)
       end)
  ∧ (∀ s version,
       match TFPolicy.version_tensors pol with
       | Some (t0, t1, t2) =>
           match t0 s, t1 s, t2 s, _convert_version_string version with
           | Ok v0, Ok v1, Ok v2, Ok current =>
               version_outcome pol s version
               = Ok (if bool_decide ([v0; v1; v2] = current) then []
                     else [EvLogWarning (version_warning (v0, v1, v2) version)])
           | Raise e, _, _, _
           | Ok _, Raise e, _, _
           | Ok _, Ok _, Raise e, _
           | Ok _, Ok _, Ok _, Raise e =>
               version_outcome pol s version = Raise e
           end
       | None => version_outcome pol s version = Ok []
       end)
  ∧ (∀ path reset ck data,
       checkpoint_states (fs (world st)) !! path = Some ck →
       checkpoint_files (fs (world st)) !! model_checkpoint_path ck = Some data →
       tf_train.var_list sv ⊆ dom (ck_variables data) →
       signatures_match sv data →
       let s' := restored sv data (get_session (world st) r) in
       let prologue := [EvLogInfo (loading_message path); EvGetCheckpointState path;
                        EvRestore r (model_checkpoint_path ck)] in
       match version_outcome pol s' __version__ with
       | Ok evs =>
           (_load_graph path reset st).1 = Ok tt
           ∧ new_events st (_load_graph path reset st).2
             = prologue ++ evs ++ step_events (self st) r reset (global_step s')
           ∧ get_session (world (_load_graph path reset st).2) r
             = loaded_session sv data reset (get_session (world st) r)
       | Raise e =>
           (_load_graph path reset st).1 = Raise e
           ∧ new_events st (_load_graph path reset st).2 = prologue
           ∧ get_session (world (_load_graph path reset st).2) r = s'
       end).
Proof.
  intros Hreach Hp Hs r. pose proof (reachable_bound st Hreach) as Hb.
  destruct (bound_registered_inv _ _ Hb Hp) as (Hg & Hr & _).
  split; [|split].
  - intros version. by apply check_model_version_bound.
  - intros s version. unfold version_outcome.
    destruct (TFPolicy.version_tensors pol) as [[[t0 t1] t2]|]; [|done].
    destruct (t0 s); [|done]. destruct (t1 s); [|done]. destruct (t2 s); [|done].
    destruct (_convert_version_string version); [|done].
    by case_bool_decide.
  - intros path reset ck data Hc Hd Hsub Hsig s' prologue.
    rewrite (load_graph_restored st pol sv ck data) by done. cbv zeta.
    fold r. fold s'.
    destruct (version_outcome pol s' __version__) as [evs|e]; simpl.
    + split; [done|]. split; [by apply new_events_app|].
      unfold get_session at 1. simpl. by rewrite lookup_insert_eq.
    + split; [done|]. split; [by apply new_events_app|].
      unfold get_session at 1. simpl. by rewrite lookup_insert_eq.
Qed.



(** C2, what the code does: when there is no checkpoint state for the
    path, [_load_graph] of a registered Saver does not raise
    [UnityPolicyException] with its message about the path; the name
    [UnityPolicyException] is bound neither in the module nor among the
    builtins, so the [raise] statement itself fails with [NameError], and
    so does a resuming [maybe_load]. *)
Theorem missing_checkpoint_raises_NameError st p path reset :
  reachable st → policy (self st) = Some p →
  checkpoint_states (fs (world st)) !! path = None →
  ("UnityPolicyException" ∉ module_globals)
  ∧ (_load_graph path reset st).1 = Raise unbound_name_error
  ∧ ((_load_graph path reset st).1 ≠ Raise (UnityPolicyException (missing_message path)))
  ∧ (load (self st) = true → load_source (self st) = path →
     (maybe_load st).1 = Raise unbound_name_error).
Proof.
  intros Hreach Hp Hc. pose proof (reachable_bound st Hreach) as Hb.
  destruct (bound_registered_inv _ _ Hb Hp) as (Hg & _).
  pose proof (load_graph_missing st _ path reset Hg Hc) as E.
  split; [apply (bool_decide_eq_false_1 ("UnityPolicyException" ∈ module_globals)); vm_compute; reflexivity|].
  split; [by rewrite E|]. split; [by rewrite E|].
  intros Hl Hsrc. rewrite (maybe_load_source st Hl), Hsrc.
  by rewrite (load_graph_missing st _ path false Hg Hc).
Qed.

(** C3, what the code does: when the checkpoint state and the checkpoint
    are found but the checkpoint lacks a variable of the graph (the
    restore raises [NotFoundError]), [_load_graph] of a registered Saver
    does not raise [UnityPolicyException] with its second message; the
    handler fails with the same [NameError] as in the case of the missing
    checkpoint, so the two failures cannot be told apart. *)
Theorem restore_mismatch_raises_NameError st p sv ck data path reset :
  reachable st → policy (self st) = Some p → saver (self st) = Some sv →
  checkpoint_states (fs (world st)) !! path = Some ck →
  checkpoint_files (fs (world st)) !! model_checkpoint_path ck = Some data →
  ¬ tf_train.var_list sv ⊆ dom (ck_variables data) →
  (saver_restore sv (sess (self st)) (model_checkpoint_path ck) st).1
  = Raise (NotFoundError "Key not found in checkpoint")
  ∧ (_load_graph path reset st).1 = Raise unbound_name_error
  ∧ ((_load_graph path reset st).1 ≠ Raise (UnityPolicyException (mismatch_message path)))
  ∧ ∀ st_missing p' path' reset',
      reachable st_missing → policy (self st_missing) = Some p' →
      checkpoint_states (fs (world st_missing)) !! path' = None →
      (_load_graph path' reset' st_missing).1 = (_load_graph path reset st).1.
Proof.
  intros Hreach Hp Hs Hc Hd Hsub. pose proof (reachable_bound st Hreach) as Hb.
  destruct (bound_registered_inv _ _ Hb Hp) as (Hg & Hr & _).
  pose proof (load_graph_mismatch st _ _ sv ck data path reset Hg Hr Hs Hc Hd Hsub) as E.
  split; [|split; [by rewrite E|split; [by rewrite E|]]].
  - unfold saver_restore. unfold_monad. rewrite Hr. simpl. rewrite Hd.
    by rewrite bool_decide_eq_false_2.
  - intros st2 p2 path2 reset2 Hreach2 Hp2 Hc2.
    pose proof (reachable_bound st2 Hreach2) as Hb2.
    destruct (bound_registered_inv _ _ Hb2 Hp2) as (Hg2 & _).
    by rewrite E, (load_graph_missing st2 _ path2 reset2 Hg2 Hc2).
Qed.

End Claims.

(** ** The properties on the sample runs *)

Section Witnesses.
#[local] Existing Instance sample_runtime.

Ltac by_computation := vm_compute; reflexivity.

Ltac decided_by_computation :=
  lazymatch goal with
  | |- ¬ ?P => apply (bool_decide_eq_false_1 P)
  | |- ?P => apply (bool_decide_eq_true_1 P)
  end; vm_compute; reflexivity.

Ltac reached_by_register p :=
  apply (reachable_call (OpRegister (Some p))), reachable_init.

(** C1 fails as stated: with the initialization path [results/run] and the
    load flag set, [maybe_load] succeeds and the step counter is the 5000
    of the checkpoint, not zero. *)
Lemma init_path_resume_keeps_step : ¬ init_path_always_resets_step.
Proof.
  intros Hstated.
  assert (reachable init_resuming_state) as Hreach by reached_by_register sample_policy.
  assert (policy (self init_resuming_state) = Some sample_policy) as Hp
    by by_computation.
  assert (initialize_path (self init_resuming_state) = Some "results/run") as Hi
    by by_computation.
  assert ((maybe_load init_resuming_state).1 = Ok tt) as Hok by by_computation.
  assert (global_step (get_session (world (maybe_load init_resuming_state).2)
                         (TFPolicy.sess sample_policy)) = 5000) as Hstep
    by by_computation.
  specialize (Hstated init_resuming_state "results/run" sample_policy
                (maybe_load init_resuming_state).2 Hreach Hp Hi).
  rewrite Hstep in Hstated. enough (5000 = 0) by done. apply Hstated.
  destruct (maybe_load init_resuming_state) as [r s]. simpl in Hok. by rewrite Hok.
Qed.

Lemma init_path_load_resets_unless_resuming_witness :
  reachable init_resuming_state
  ∧ policy (self init_resuming_state) = Some sample_policy
  ∧ initialize_path (self init_resuming_state) = Some "results/run"
  ∧ maybe_load init_resuming_state
    = _load_graph "results/run" (negb (load (self init_resuming_state)))
        init_resuming_state.
Proof.
  assert (reachable init_resuming_state) as Hreach by reached_by_register sample_policy.
  assert (policy (self init_resuming_state) = Some sample_policy) as Hp
    by by_computation.
  assert (initialize_path (self init_resuming_state) = Some "results/run") as Hi
    by by_computation.
  split; [exact Hreach|]. split; [exact Hp|]. split; [exact Hi|].
  exact (proj1 (init_path_load_resets_unless_resuming init_resuming_state "results/run"
                  sample_policy Hreach Hp Hi)).
Defined.

Lemma registration_invariant_witness :
  reachable registered_state
  ∧ (unregistered (self registered_state) = true
     ↔ policy (self registered_state) = None).
Proof.
  assert (reachable registered_state) as Hreach by reached_by_register sample_policy.
  split; [exact Hreach|].
  exact (proj1 (proj2 (registration_invariant registered_state Hreach))).
Defined.

Lemma maybe_load_selects_branch_witness :
  reachable restarted_state
  ∧ maybe_load restarted_state
    = _load_graph (model_path (self restarted_state)) false restarted_state.
Proof.
  assert (reachable restarted_state) as Hreach by reached_by_register sample_policy.
  split; [exact Hreach|].
  pose proof (maybe_load_selects_branch restarted_state Hreach) as Hbranch.
  assert (initialize_path (self restarted_state) = None) as Hi by by_computation.
  assert (load (self restarted_state) = true) as Hl by by_computation.
  cbv zeta in Hbranch. rewrite Hi, Hl in Hbranch. exact (proj1 Hbranch).
Defined.

Lemma step_reset_only_without_resume_witness :
  reachable init_state
  ∧ ∀ r n, EvSetStep r n ∈ new_events init_state (maybe_load init_state).2 →
           n = 0 ∧ load (self init_state) = false
           ∧ is_Some (initialize_path (self init_state)).
Proof.
  assert (reachable init_state) as Hreach by reached_by_register sample_policy.
  split; [exact Hreach|].
  exact (proj1 (step_reset_only_without_resume init_state Hreach)).
Defined.

(** C4 fails as stated: once the checkpoint of the sample run is restored,
    the version check raises [ValueError] for the version string [1.2b3],
    whose third component is not a number. *)
Lemma version_check_raises_on_prerelease : ¬ version_check_never_raises.
Proof.
  intros Hstated.
  assert (reachable restarted_state) as Hreach by reached_by_register sample_policy.
  assert (policy (self restarted_state) = Some sample_policy) as Hp by by_computation.
  assert (checkpoint_states (fs (world restarted_state)) !! "results/run"
          = Some sample_checkpoint_state) as Hc by by_computation.
  assert ((restore_attempt sample_checkpoint_state
             (looked_up "results/run" restarted_state)).1 = Ok tt) as Hok
    by by_computation.
  assert ((_check_model_version "1.2b3"
             (restore_attempt sample_checkpoint_state
                (looked_up "results/run" restarted_state)).2).1
          = Raise (ValueError "invalid literal for int() with base 10: 'b'")) as Hraise
    by by_computation.
  specialize (Hstated restarted_state sample_policy "results/run" false
                sample_checkpoint_state
                (restore_attempt sample_checkpoint_state
                   (looked_up "results/run" restarted_state)).2 Hreach Hp Hc).
  destruct Hstated as [Hnever _].
  - destruct (restore_attempt sample_checkpoint_state
                (looked_up "results/run" restarted_state)) as [r s].
    simpl in Hok. by rewrite Hok.
  - specialize (Hnever "1.2b3"). rewrite Hraise in Hnever. discriminate.
Qed.

Lemma version_check_warns_or_propagates_witness :
  reachable restarted_state
  ∧ policy (self restarted_state) = Some sample_policy
  ∧ saver (self restarted_state) = Some sample_saver
  ∧ checkpoint_states (fs (world restarted_state)) !! "results/run"
    = Some sample_checkpoint_state
  ∧ checkpoint_files (fs (world restarted_state))
      !! model_checkpoint_path sample_checkpoint_state
    = Some sample_checkpoint
  ∧ tf_train.var_list sample_saver ⊆ dom (ck_variables sample_checkpoint)
  ∧ signatures_match sample_saver sample_checkpoint
  ∧ (_load_graph "results/run" false restarted_state).1 = Ok tt.
Proof.
  assert (reachable restarted_state) as Hreach by reached_by_register sample_policy.
  assert (policy (self restarted_state) = Some sample_policy) as Hp by by_computation.
  assert (saver (self restarted_state) = Some sample_saver) as Hs by by_computation.
  assert (checkpoint_states (fs (world restarted_state)) !! "results/run"
          = Some sample_checkpoint_state) as Hc by by_computation.
  assert (checkpoint_files (fs (world restarted_state))
            !! model_checkpoint_path sample_checkpoint_state
          = Some sample_checkpoint) as Hd by by_computation.
  assert (tf_train.var_list sample_saver ⊆ dom (ck_variables sample_checkpoint)) as Hsub
    by decided_by_computation.
  assert (signatures_match sample_saver sample_checkpoint) as Hsig
    by decided_by_computation.
  assert (∃ evs,
            version_outcome sample_policy
              (restored sample_saver sample_checkpoint
                 (get_session (world restarted_state) (TFPolicy.sess sample_policy)))
              __version__ = Ok evs) as [evs Hv]
    by (eexists; by_computation).
  repeat (split; [assumption|]).
  pose proof (proj2 (proj2 (version_check_warns_or_propagates restarted_state
                              sample_policy sample_saver Hreach Hp Hs))
                "results/run" false sample_checkpoint_state sample_checkpoint
                Hc Hd Hsub Hsig) as Hload.
  cbv zeta in Hload. rewrite Hv in Hload. exact (proj1 Hload).
Defined.




Lemma missing_checkpoint_raises_NameError_witness :
  reachable registered_state
  ∧ policy (self registered_state) = Some sample_policy
  ∧ checkpoint_states (fs (world registered_state)) !! "results/run" = None
  ∧ (maybe_load registered_state).1 = Raise unbound_name_error.
Proof.
  assert (reachable registered_state) as Hreach by reached_by_register sample_policy.
  assert (policy (self registered_state) = Some sample_policy) as Hp by by_computation.
  assert (checkpoint_states (fs (world registered_state)) !! "results/run" = None) as Hc
    by by_computation.
  repeat (split; [assumption|]).
  apply (missing_checkpoint_raises_NameError registered_state sample_policy
           "results/run" false Hreach Hp Hc); by_computation.
Defined.

Lemma restore_mismatch_raises_NameError_witness :
  reachable mismatched_state
  ∧ policy (self mismatched_state) = Some wider_policy
  ∧ saver (self mismatched_state) = Some wider_saver
  ∧ checkpoint_states (fs (world mismatched_state)) !! "results/run"
    = Some sample_checkpoint_state
  ∧ checkpoint_files (fs (world mismatched_state))
      !! model_checkpoint_path sample_checkpoint_state
    = Some sample_checkpoint
  ∧ ¬ tf_train.var_list wider_saver ⊆ dom (ck_variables sample_checkpoint)
  ∧ (_load_graph "results/run" false mismatched_state).1 = Raise unbound_name_error.
Proof.
  assert (reachable mismatched_state) as Hreach by reached_by_register wider_policy.
  assert (policy (self mismatched_state) = Some wider_policy) as Hp by by_computation.
  assert (saver (self mismatched_state) = Some wider_saver) as Hs by by_computation.
  assert (checkpoint_states (fs (world mismatched_state)) !! "results/run"
          = Some sample_checkpoint_state) as Hc by by_computation.
  assert (checkpoint_files (fs (world mismatched_state))
            !! model_checkpoint_path sample_checkpoint_state
          = Some sample_checkpoint) as Hd by by_computation.
  assert (¬ tf_train.var_list wider_saver ⊆ dom (ck_variables sample_checkpoint)) as Hsub
    by decided_by_computation.
  repeat (split; [assumption|]).
  exact (proj1 (proj2 (restore_mismatch_raises_NameError mismatched_state wider_policy
                         wider_saver sample_checkpoint_state sample_checkpoint
                         "results/run" false Hreach Hp Hs Hc Hd Hsub))).
Defined.

End Witnesses.

(** ** Further properties of the methods *)

Section Further.
Context `{!Runtime}.

(** Every way [_load_graph] of a registered Saver can raise. *)
Lemma load_graph_raises st p path reset e st' :
  bound (self st) → policy (self st) = Some p →
  _load_graph path reset st = (Raise e, st') →
  Forall is_load_prologue (new_events st st')
  ∧ (¬ loadable (self st) (fs (world st)) path →
     sessions (world st') = sessions (world st)).
Proof.
  intros Hb Hp Hraise.
  destruct (bound_registered_inv _ _ Hb Hp) as (Hg & Hr & sv & Hs & _).
  destruct (checkpoint_states (fs (world st)) !! path) as [ck|] eqn:Hc.
  - destruct (checkpoint_files (fs (world st)) !! model_checkpoint_path ck) as [data|] eqn:Hd.
    + destruct (decide (tf_train.var_list sv ⊆ dom (ck_variables data))) as [Hsub|Hsub].
      * assert (loadable (self st) (fs (world st)) path) as Hloadable
          by (by exists sv, ck, data).
        destruct (decide (signatures_match sv data)) as [Hsig|Hsig].
        -- rewrite (load_graph_restored st p sv ck data) in Hraise by done.
           destruct (version_outcome p _ __version__) as [evs|e']; [done|].
           injection Hraise as <- <-. split; [|done].
           erewrite new_events_app by (simpl; reflexivity). by repeat constructor.
        -- rewrite (load_graph_reshaped st (TFPolicy.graph p) (TFPolicy.sess p) sv ck data)
             in Hraise by done.
           injection Hraise as <- <-. split; [|done].
           erewrite new_events_app by (simpl; reflexivity). by repeat constructor.
      * rewrite (load_graph_mismatch st (TFPolicy.graph p) (TFPolicy.sess p) sv ck data)
          in Hraise by done.
        injection Hraise as <- <-. split; [|done].
        erewrite new_events_app by (simpl; reflexivity). by repeat constructor.
    + rewrite (load_graph_no_data st (TFPolicy.graph p) (TFPolicy.sess p) sv ck)
        in Hraise by done.
      injection Hraise as <- <-. split; [|done].
      erewrite new_events_app by (simpl; reflexivity). by repeat constructor.
  - rewrite (load_graph_missing st (TFPolicy.graph p) path reset Hg Hc) in Hraise.
    injection Hraise as <- <-. split; [|done].
    erewrite new_events_app by (simpl; reflexivity). by repeat constructor.
Qed.

(** X1: a load reads and never writes.  Whatever the state, the path and
    the outcome (normal return or exception), [_load_graph] and
    [maybe_load] leave every attribute of the Saver and every file as they
    were, and only add to the log. *)
Theorem loads_change_neither_attributes_nor_files st :
  (∀ path reset,
     self (_load_graph path reset st).2 = self st
     ∧ fs (world (_load_graph path reset st).2) = fs (world st)
     ∧ ∃ evs, log (world (_load_graph path reset st).2) = log (world st) ++ evs)
  ∧ self (maybe_load st).2 = self st
  ∧ fs (world (maybe_load st).2) = fs (world st)
  ∧ ∃ evs, log (world (maybe_load st).2) = log (world st) ++ evs.
Proof.
  split.
  - intros path reset.
    destruct (load_graph_frames path reset st) as (Hs & Hf & evs & Hl & _). eauto.
  - destruct (maybe_load_frame st) as (Hs & Hf & evs & Hl & _). eauto.
Qed.

(** X2: a load that fails has run no step logic.  When [_load_graph] or
    [maybe_load] raises, in any state a Saver can reach, the calls made
    are at most the log line, the lookup of the checkpoint state and the
    attempted restore: no version warning was logged, no step was set, no
    graph was initialized.  And unless a checkpoint holding every variable
    of the framework saver was found (only then does the restore assign),
    the sessions are as they were. *)
Theorem failed_load_stops_before_step_logic st :
  reachable st →
  (∀ path reset e st',
     _load_graph path reset st = (Raise e, st') →
     Forall is_load_prologue (new_events st st')
     ∧ (¬ loadable (self st) (fs (world st)) path →
        sessions (world st') = sessions (world st)))
  ∧ (∀ e st',
       maybe_load st = (Raise e, st') →
       Forall is_load_prologue (new_events st st')
       ∧ (¬ loadable (self st) (fs (world st)) (load_source (self st)) →
          sessions (world st') = sessions (world st))).
Proof.
  intros Hreach. pose proof (reachable_bound st Hreach) as Hb.
  assert (∀ path reset e st',
            _load_graph path reset st = (Raise e, st') →
            Forall is_load_prologue (new_events st st')
            ∧ (¬ loadable (self st) (fs (world st)) path →
               sessions (world st') = sessions (world st))) as Hload.
  { intros path reset e st' Hraise.
    destruct (policy (self st)) as [p|] eqn:Hp.
    - by apply (load_graph_raises st p path reset e st').
    - unfold bound in Hb. rewrite Hp in Hb. destruct Hb as (Hg & _).
      rewrite (load_graph_unbound st path reset Hg) in Hraise.
      injection Hraise as <- <-. split; [|done].
      rewrite new_events_same. constructor. }
  split; [exact Hload|].
  intros e st' Hraise. unfold load_source.
  destruct (initialize_path (self st)) as [init|] eqn:Hi.
  - rewrite (maybe_load_init st init Hi) in Hraise. by eapply Hload.
  - destruct (load (self st)) eqn:Hl.
    + rewrite (maybe_load_resume st Hi Hl) in Hraise. by eapply Hload.
    + rewrite (maybe_load_fresh st Hi Hl) in Hraise.
      destruct (policy (self st)) as [p|] eqn:Hp.
      * by rewrite (initialize_fresh_registered st p Hp) in Hraise.
      * rewrite (initialize_fresh_unregistered st Hp) in Hraise.
        injection Hraise as <- <-. split; [|done].
        rewrite new_events_same. constructor.
Qed.

(** X3: on an unregistered Saver [maybe_load] raises [AttributeError] in
    each of its three branches, and so does [_check_model_version]; the
    state, log included, is unchanged. *)
Theorem unregistered_load_raises_AttributeError st :
  reachable st → unregistered (self st) = true →
  maybe_load st
  = (Raise (no_attribute
              (if bool_decide (initialize_path (self st) = None ∧ load (self st) = false)
               then "_initialize_graph" else "as_default")), st)
  ∧ ∀ version,
      _check_model_version version st = (Raise (no_attribute "version_tensors"), st).
Proof.
  intros Hreach Hu. pose proof (reachable_bound st Hreach) as Hb.
  unfold unregistered in Hu. destruct (policy (self st)) eqn:Hp; [done|].
  unfold bound in Hb. rewrite Hp in Hb. destruct Hb as (Hg & _).
  split.
  - destruct (initialize_path (self st)) as [init|] eqn:Hi.
    + rewrite (maybe_load_init st init Hi).
      rewrite bool_decide_eq_false_2 by (by intros [? _]).
      by apply load_graph_unbound.
    + destruct (load (self st)) eqn:Hl.
      * rewrite (maybe_load_resume st Hi Hl).
        rewrite bool_decide_eq_false_2 by (by intros [_ ?]).
        by apply load_graph_unbound.
      * rewrite (maybe_load_fresh st Hi Hl).
        rewrite bool_decide_eq_true_2 by done.
        by apply initialize_fresh_unregistered.
  - intros version. unfold _check_model_version. unfold_monad. simpl. by rewrite Hp.
Qed.

(** X4: only [NotFoundError] is translated.  When the checkpoint state is
    found and the restore fails with any other exception, [_load_graph]
    raises that very exception, in the state the restore left, and runs
    neither the version check nor the step logic. *)
Theorem other_restore_failures_propagate st g ck path reset e st' :
  graph (self st) = Some g →
  checkpoint_states (fs (world st)) !! path = Some ck →
  restore_attempt ck (looked_up path st) = (Raise e, st') →
  is_NotFoundError e = false →
  _load_graph path reset st = (Raise e, st').
Proof.
  destruct st as [s [ss f l]]. simpl. intros Hg Hc Hrestore Hother.
  unfold restore_attempt, looked_up, add_events, saver_restore in Hrestore.
  unfold _load_graph, get_checkpoint_state, saver_restore.
  unfold_monad. simpl in *. rewrite Hg. simpl. rewrite Hc. simpl.
  rewrite <- !app_assoc. simpl.
  destruct (saver s) as [sv|]; simpl in *.
  - destruct (sess s) as [r|]; simpl in *.
    + destruct (checkpoint_files f !! model_checkpoint_path ck) as [data|]; simpl in *.
      * case_bool_decide; simpl in *.
        -- case_bool_decide; simpl in *; [done|].
           injection Hrestore as <- <-. simpl. by rewrite <- !app_assoc.
        -- injection Hrestore as <- <-. done.
      * injection Hrestore as <- <-. simpl. by rewrite <- !app_assoc.
    + injection Hrestore as <- <-. done.
  - injection Hrestore as <- <-. done.
Qed.

(** X5: the configuration is fixed at construction.  No method call, in
    any state and whether it returns or raises, changes [model_path],
    [initialize_path], [_keep_checkpoints] or [load]; in every state a
    Saver can reach they are the arguments [__init__] was given. *)
Theorem configuration_is_immutable :
  (∀ o st, configuration (self (run o st).2) = configuration (self st))
  ∧ (∀ trainer_settings path flag,
       configuration (__init__ trainer_settings path flag)
       = (path, TrainerSettings.init_path trainer_settings,
          TrainerSettings.keep_checkpoints trainer_settings, flag))
  ∧ ∀ st, reachable st →
          ∃ trainer_settings path flag,
            configuration (self st) = configuration (__init__ trainer_settings path flag).
Proof.
  assert (∀ o st, configuration (self (run o st).2) = configuration (self st)) as Hrun.
  { intros o st.
    destruct (run_self o st) as [->|[(m & _ & ->)|(? & ? & sv & _ & _ & ->)]]; done. }
  split; [exact Hrun|]. split; [done|].
  induction 1 as [ts mp ld w|o st _ IH|st w _ IH]; simpl.
  - by exists ts, mp, ld.
  - by rewrite Hrun.
  - done.
Qed.

(** X6: only [register] rebinds.  Every other method call, in any state,
    leaves [policy], [graph] and [sess] as they were and leaves the
    framework saver with the bound and the variables it was built with;
    apart from [save_checkpoint], which renews the list of retained
    checkpoints, it leaves the framework saver untouched. *)
Theorem only_register_rebinds o st :
  is_register o = false →
  binding (self (run o st).2) = binding (self st)
  ∧ saver_shape (self (run o st).2) = saver_shape (self st)
  ∧ (is_save_checkpoint o = false → saver (self (run o st).2) = saver (self st)).
Proof.
  intros Hreg.
  destruct (run_self o st) as [->|[(m & -> & _)|(? & ? & sv & -> & Hs & ->)]];
    [done|done|].
  split; [done|]. split; [|done].
  unfold saver_shape. simpl. rewrite Hs. simpl.
  by rewrite record_last_max, record_last_vars.
Qed.

(** X7: the last registration wins.  Registering a policy after any
    earlier registration (or none) leaves exactly the attributes that
    registering it alone leaves: the Saver is bound to the new policy, with
    a new framework saver that retains nothing of what the earlier one had
    written; sessions and files are not touched. *)
Theorem last_registration_wins st earlier m :
  let st1 := (register earlier st).2 in
  let st2 := (register (Some m) st1).2 in
  self st2 = self (register (Some m) st).2
  ∧ saver (self st2) = Some (fresh_saver (self st) (TFPolicy.graph m))
  ∧ (tf_train.last_checkpoints <$> saver (self st2)) = Some []
  ∧ sessions (world st2) = sessions (world st)
  ∧ fs (world st2) = fs (world st).
Proof.
  destruct earlier as [m1|]; cbv zeta.
  - rewrite !register_Some. simpl. done.
  - rewrite register_None, !register_Some. simpl. done.
Qed.

(** X8: the guard [if self.saver:].  With the graph and the session set
    and no framework saver, [save_checkpoint] writes no checkpoint and no
    checkpoint state, and still writes the graph file to [model_path] and
    exports, in that order, returning normally. *)
Theorem save_checkpoint_without_framework_saver st g r checkpoint_path settings :
  graph (self st) = Some g → sess (self st) = Some r → saver (self st) = None →
  let st' := (save_checkpoint checkpoint_path settings st).2 in
  (save_checkpoint checkpoint_path settings st).1 = Ok tt
  ∧ new_events st st'
    = [ EvWriteGraph g (model_path (self st)) "raw_graph_def.pb" false;
        EvExport checkpoint_path settings g r ]
  ∧ checkpoint_files (fs (world st')) = checkpoint_files (fs (world st))
  ∧ checkpoint_states (fs (world st')) = checkpoint_states (fs (world st))
  ∧ graph_defs (fs (world st')) !! path_join (model_path (self st)) "raw_graph_def.pb"
    = Some (g, false)
  ∧ self st' = self st.
Proof.
  destruct st as [s [ss f l]]. simpl. intros Hg Hr Hs.
  unfold save_checkpoint, export, write_graph, export_policy_model.
  unfold_monad. simpl.
  repeat (first [rewrite Hg | rewrite Hr | rewrite Hs]; simpl).
  split; [done|]. split.
  - apply new_events_app. simpl. by rewrite <- !app_assoc.
  - repeat split. apply path_lookup_insert_eq.
Qed.

(** X9: [export] of a registered Saver exports the graph and the session of
    the policy it is registered with: it returns normally after the one
    export call, with the path and settings it was given, and changes no
    attribute and no session. *)
Theorem export_uses_registered_policy st p output_filepath settings :
  reachable st → policy (self st) = Some p →
  let st' := (export output_filepath settings st).2 in
  (export output_filepath settings st).1 = Ok tt
  ∧ new_events st st'
    = [EvExport output_filepath settings (TFPolicy.graph p) (TFPolicy.sess p)]
  ∧ self st' = self st
  ∧ sessions (world st') = sessions (world st).
Proof.
  intros Hreach Hp. pose proof (reachable_bound st Hreach) as Hb.
  destruct (bound_registered_inv _ _ Hb Hp) as (Hg & Hr & _).
  destruct st as [s [ss f l]]. simpl in *.
  unfold export, export_policy_model. unfold_monad. simpl.
  rewrite Hg. simpl. rewrite Hr. simpl.
  split; [done|]. split; [by apply new_events_app|]. done.
Qed.


End Further.

(** ** The further properties on the sample runs *)

Section FurtherWitnesses.
#[local] Existing Instance sample_runtime.

Ltac computed := vm_compute; reflexivity.

Ltac registered_from p :=
  apply (reachable_call (OpRegister (Some p))), reachable_init.

Lemma failed_load_stops_before_step_logic_witness :
  reachable registered_state
  ∧ ∀ e st', maybe_load registered_state = (Raise e, st') →
             Forall is_load_prologue (new_events registered_state st')
             ∧ (¬ loadable (self registered_state) (fs (world registered_state))
                    (load_source (self registered_state)) →
                sessions (world st') = sessions (world registered_state)).
Proof.
  assert (reachable registered_state) as Hreach by registered_from sample_policy.
  split; [exact Hreach|].
  exact (proj2 (failed_load_stops_before_step_logic registered_state Hreach)).
Defined.

Lemma unregistered_load_raises_AttributeError_witness :
  reachable new_state
  ∧ unregistered (self new_state) = true
  ∧ maybe_load new_state = (Raise (no_attribute "as_default"), new_state).
Proof.
  assert (reachable new_state) as Hreach by apply reachable_init.
  assert (unregistered (self new_state) = true) as Hu by computed.
  split; [exact Hreach|]. split; [exact Hu|].
  exact (proj1 (unregistered_load_raises_AttributeError new_state Hreach Hu)).
Defined.

Lemma other_restore_failures_propagate_witness :
  graph (self stale_state) = Some sample_graph
  ∧ checkpoint_states (fs (world stale_state)) !! "results/run"
    = Some sample_checkpoint_state
  ∧ (_load_graph "results/run" false stale_state).1
    = Raise (ValueError ("The passed save_path is not a valid checkpoint: "
                         +:+ "results/run/Brain-5000.ckpt")).
Proof.
  assert (graph (self stale_state) = Some sample_graph) as Hg by computed.
  assert (checkpoint_states (fs (world stale_state)) !! "results/run"
          = Some sample_checkpoint_state) as Hc by computed.
  split; [exact Hg|]. split; [exact Hc|].
  assert ((restore_attempt sample_checkpoint_state (looked_up "results/run" stale_state)).1
          = Raise (ValueError ("The passed save_path is not a valid checkpoint: "
                               +:+ "results/run/Brain-5000.ckpt"))) as Hrestore
    by computed.
  destruct (restore_attempt sample_checkpoint_state (looked_up "results/run" stale_state))
    as [r st'] eqn:E.
  simpl in Hrestore. subst r.
  by rewrite (other_restore_failures_propagate stale_state sample_graph
                sample_checkpoint_state "results/run" false _ st' Hg Hc E eq_refl).
Defined.

Lemma configuration_is_immutable_witness :
  reachable restarted_state
  ∧ ∃ trainer_settings path flag,
      configuration (self restarted_state)
      = configuration (__init__ trainer_settings path flag).
Proof.
  assert (reachable restarted_state) as Hreach by registered_from sample_policy.
  split; [exact Hreach|].
  exact (proj2 (proj2 configuration_is_immutable) restarted_state Hreach).
Defined.

Lemma only_register_rebinds_witness :
  is_register OpMaybeLoad = false
  ∧ binding (self (run OpMaybeLoad restarted_state).2) = binding (self restarted_state).
Proof.
  split; [reflexivity|].
  exact (proj1 (only_register_rebinds OpMaybeLoad restarted_state eq_refl)).
Defined.

Lemma save_checkpoint_without_framework_saver_witness :
  graph (self saverless_state) = Some sample_graph
  ∧ sess (self saverless_state) = Some 1%nat
  ∧ saver (self saverless_state) = None
  ∧ (save_checkpoint "results/run/Brain-5000" sample_settings saverless_state).1 = Ok tt.
Proof.
  assert (graph (self saverless_state) = Some sample_graph) as Hg by computed.
  assert (sess (self saverless_state) = Some 1%nat) as Hr by computed.
  assert (saver (self saverless_state) = None) as Hs by computed.
  repeat (split; [assumption|]).
  exact (proj1 (save_checkpoint_without_framework_saver saverless_state sample_graph
                  1%nat "results/run/Brain-5000" sample_settings Hg Hr Hs)).
Defined.

Lemma export_uses_registered_policy_witness :
  reachable registered_state
  ∧ policy (self registered_state) = Some sample_policy
  ∧ (export "results/run/Brain" sample_settings registered_state).1 = Ok tt.
Proof.
  assert (reachable registered_state) as Hreach by registered_from sample_policy.
  assert (policy (self registered_state) = Some sample_policy) as Hp by computed.
  repeat (split; [assumption|]).
  exact (proj1 (export_uses_registered_policy registered_state sample_policy
                  "results/run/Brain" sample_settings Hreach Hp)).
Defined.


End FurtherWitnesses.
